(** * prism: request echo server — port resolution and request normalisation

    A shallow embedding of [prism.go].  The repository keeps four revisions
    of the server in one file; each one is a [package main] of its own:

    - lines   1-120: the first echo handler, fixed port 8080       ([Rev1]);
    - lines 745-954: adds [findAvailablePort] and [getPortFromEnv] ([Rev2]);
    - lines 493-744: adds [getFullURL], the received time and the
                     lenient port parsing                          ([Rev3]);
    - lines 121-492: adds the log file, the attempt bound and the
                     exclusive bind                                ([Rev4]).

    Go values are modelled as follows: [int] is a 64-bit integer carried
    in [Z] (the binaries are built for amd64 and arm64) with the wrap-around
    of [++] written out; [string] and [[]byte] are byte sequences ([string]
    and [list ascii]); [error] is [option string] ([None] is [nil], [Some m]
    an error whose [Error()] text is [m]); maps are [gmap]s; [interface{}]
    is the type [any] of the dynamic values the program builds. *)

From Stdlib Require Import ZArith Lia Bool List Ascii String DecimalString DecimalPos PrimFloat.
From Stdlib Require Uint63 SpecFloat FloatOps.
From stdpp Require Import base option list strings gmap.

Local Open Scope string_scope.
Local Open Scope Z_scope.

#[local] Set Warnings "-register-all".

(** ** Go's [int] and [error] *)

Definition int_min : Z := - 2 ^ 63.
Definition int_max : Z := 2 ^ 63 - 1.

Definition is_int (z : Z) : Prop := int_min <= z <= int_max.

(** Two's-complement wrap-around of a 64-bit signed integer. *)
Definition int_wrap (z : Z) : Z := (z + 2 ^ 63) mod 2 ^ 64 - 2 ^ 63.

(** [x++] *)
Definition incr (x : Z) : Z := int_wrap (x + 1).

(** [error]: [nil] or a message. *)
Definition error : Type := option string.

(** [string(b)] and [[]byte(s)] *)
Definition string_of_bytes (b : list ascii) : string := string_of_list_ascii b.
Definition bytes_of_string (s : string) : list ascii := list_ascii_of_string s.

(** ** The pieces of [strings], [strconv], [fmt] and [os] the program calls *)

Module strings.

(** [strings.Contains(s, substr)] *)
Fixpoint Contains (s substr : string) : bool :=
  String.prefix substr s ||
  match s with
  | EmptyString => false
  | String _ s' => Contains s' substr
  end.

Definition lower_byte (c : ascii) : ascii :=
  let n := nat_of_ascii c in
  if (Nat.leb 65 n && Nat.leb n 90)%bool then ascii_of_nat (n + 32) else c.

(** [strings.ToLower(s)].  The letters A-Z are folded; other bytes are
    kept (the texts folded here are the operating system's bind errors,
    which are ASCII). *)
Fixpoint ToLower (s : string) : string :=
  match s with
  | EmptyString => EmptyString
  | String c s' => String (lower_byte c) (ToLower s')
  end.

(** [strings.Join(elems, sep)] *)
Fixpoint Join (elems : list string) (sep : string) : string :=
  match elems with
  | [] => ""
  | [e] => e
  | e :: rest => e ++ sep ++ Join rest sep
  end.

(** The UTF-8 encodings of the runes [unicode.IsSpace] accepts: the six
    ASCII ones, U+0085, U+00A0, U+1680, U+2000-U+200A, U+2028, U+2029,
    U+202F, U+205F and U+3000. *)
Definition is_space_rune (bs : list N) : bool :=
  match bs with
  | [b] => (N.leb 9 b && N.leb b 13) || N.eqb b 32
  | [b1; b2] => N.eqb b1 194 && (N.eqb b2 133 || N.eqb b2 160)
  | [b1; b2; b3] =>
      (N.eqb b1 225 && N.eqb b2 154 && N.eqb b3 128) ||
      (N.eqb b1 226 && N.eqb b2 128 &&
         ((N.leb 128 b3 && N.leb b3 138) || N.eqb b3 168 || N.eqb b3 169 || N.eqb b3 175)) ||
      (N.eqb b1 226 && N.eqb b2 129 && N.eqb b3 159) ||
      (N.eqb b1 227 && N.eqb b2 128 && N.eqb b3 128)
  | _ => false
  end%bool.

(** Width in bytes of the white-space rune the bytes start with, 0 if
    they start with none. *)
Definition space_width (bs : list N) : nat :=
  if is_space_rune (take 1 bs) then 1
  else if is_space_rune (take 2 bs) then 2
  else if is_space_rune (take 3 bs) then 3
  else 0%nat.

(** Width of the white-space rune the bytes end with, 0 if none. *)
Definition space_width_end (bs : list N) : nat :=
  let n := length bs in
  if is_space_rune (drop (n - 1) bs) then 1
  else if is_space_rune (drop (n - 2) bs) then 2
  else if is_space_rune (drop (n - 3) bs) then 3
  else 0%nat.

Fixpoint trim_left (fuel : nat) (bs : list N) : list N :=
  match fuel with
  | O => bs
  | S fuel' =>
    match space_width bs with
    | O => bs
    | w => trim_left fuel' (drop w bs)
    end
  end.

Fixpoint trim_right (fuel : nat) (bs : list N) : list N :=
  match fuel with
  | O => bs
  | S fuel' =>
    match space_width_end bs with
    | O => bs
    | w => trim_right fuel' (take (length bs - w) bs)
    end
  end.

(** [strings.TrimSpace(s)]: leading and trailing white-space runes are
    removed; every step removes at least one byte, so the length bounds
    the number of steps. *)
Definition TrimSpace (s : string) : string :=
  let bs := map N_of_ascii (list_ascii_of_string s) in
  let bs := trim_left (length bs) bs in
  let bs := trim_right (length bs) bs in
  string_of_list_ascii (map ascii_of_N bs).

End strings.

Definition is_digit (c : ascii) : bool :=
  let n := N_of_ascii c in (N.leb 48 n && N.leb n 57)%bool.

(** Value of a run of decimal digits, most significant first. *)
Fixpoint digits_value (acc : Z) (s : string) : Z :=
  match s with
  | EmptyString => acc
  | String c s' => digits_value (10 * acc + (Z.of_N (N_of_ascii c) - 48)) s'
  end.

Fixpoint all_digits (s : string) : bool :=
  match s with
  | EmptyString => true
  | String c s' => is_digit c && all_digits s'
  end.

Module strconv.

(** An optional sign and the rest of the text. *)
Definition split_sign (s : string) : bool * string :=
  match s with
  | String "+" rest => (false, rest)
  | String "-" rest => (true, rest)
  | _ => (false, s)
  end.

(** [strconv.Atoi(s)], that is [ParseInt(s, 10, 0)] with a 64-bit [int]:
    an optional sign and at least one decimal digit; a value that does not
    fit is clamped and reported as out of range.  The error is given by
    its [Err] text. *)
Definition Atoi (s : string) : Z * error :=
  let '(neg, digits) := split_sign s in
  if (String.length digits =? 0)%nat || negb (all_digits digits) then
    (0, Some "invalid syntax")
  else
    let un := digits_value 0 digits in
    if negb neg && (int_max <? un) then (int_max, Some "value out of range")
    else if neg && (- int_min <? un) then (int_min, Some "value out of range")
    else (if neg then - un else un, None).

End strconv.

(** [%d] of [fmt] *)
Definition fmt_d (z : Z) : string := NilZero.string_of_int (Z.to_int z).

(** The process environment; [os.Getenv] gives the empty string for a
    variable that is not set. *)
Definition Getenv (env : gmap string string) (key : string) : string :=
  default "" (env !! key).

(** ** Dynamic values

    The values stored in [interface{}] variables: what [json.Unmarshal]
    produces ([nil], [bool], [float64], [string], [[]interface{}],
    [map[string]interface{}]) and what the handler builds for a multipart
    form ([string], [[]string], [int64], [textproto.MIMEHeader],
    [[]map[string]interface{}]). *)
Inductive any : Type :=
| Nil
| Bool (b : bool)
| Float64 (f : float)
| Str (s : string)
| Int64 (n : Z)
| Strs (l : list string)
| MIMEHeader (h : gmap string (list string))
| Slice (l : list any)
| Map (m : gmap string any)
| Maps (l : list (gmap string any)).

(** ** Library interfaces

    [encoding/json] and [net/url] are not part of the repository; the
    handler is modelled over any implementation of the calls it makes.
    What the two libraries do is given after the interfaces, for the
    properties that depend on it. *)

Inductive decoded : Type :=
| Decoded (v : any)           (* err == nil, the value stored through the pointer *)
| DecodeError (msg : string). (* err != nil *)

Class EncodingJSON : Type := {
  (** [json.Unmarshal(data, &v)] for [v] of type [interface{}] *)
  Unmarshal : list ascii -> decoded;
  (** [json.MarshalIndent(v, prefix, indent)]; the handler drops the error *)
  MarshalIndent : any -> string -> string -> list ascii
}.

(** ** [encoding/json]: how a document is stored in an [interface{}] and
    written back *)

Module json.

(** A JSON document as a value (RFC 8259): a number is kept as it is
    written, an object is the mapping from its names to their values (for
    a text that repeats a name, the last value, as [encoding/json] reads
    it). *)
Inductive value : Type :=
| Null
| Boolean (b : bool)
| Number (literal : string)
| String (s : string)
| Array (elements : list value)
| Object (members : gmap string value).

(** [json.Unmarshal(data, &v)] for [v] of type [interface{}] works in two
    steps.  The scanner checks the text and reads the document; it is the
    parameter [scan], [None] for a text that is not JSON.  The decoder
    stores the document ([valueInterface] and its callees in [decode.go]):
    [nil], [bool], [string], [[]interface{}] and [map[string]interface{}]
    as the document has them, and every number as the [float64] that
    [strconv.ParseFloat(literal, 64)] returns, the parameter [ParseFloat];
    when that fails ([None]: the number is out of range) the error is
    saved, [nil] is stored and decoding goes on. *)
Section Decoder.
Variable scan : list ascii -> option value.
Variable ParseFloat : string -> option float.

Fixpoint valueInterface (d : value) : any :=
  match d with
  | Null => Nil
  | Boolean b => Bool b
  | Number lit => match ParseFloat lit with Some f => Float64 f | None => Nil end
  | String s => Str s
  | Array l => Slice (map valueInterface l)
  | Object m => Map (valueInterface <$> m)
  end.

(** Whether an error was saved while the document was stored. *)
Fixpoint savedError (d : value) : bool :=
  match d with
  | Number lit => match ParseFloat lit with Some _ => false | None => true end
  | Array l => existsb savedError l
  | Object m => map_fold (fun _ v acc => savedError v || acc) false m
  | _ => false
  end.

(** The handler tests the error against [nil] only; the texts stand for
    the syntax error and the saved [UnmarshalTypeError]. *)
Definition Unmarshal (data : list ascii) : decoded :=
  match scan data with
  | None => DecodeError "invalid character"
  | Some d =>
    if savedError d then DecodeError "json: cannot unmarshal number into Go value of type float64"
    else Decoded (valueInterface d)
  end.

End Decoder.




(** The number a [float64] is, as a mantissa and a binary exponent;
    [None] for an infinity and for NaN. *)
Definition exact (f : float) : option (Z * Z) :=
  match FloatOps.Prim2SF f with
  | SpecFloat.S754_zero _ => Some (0, 0)
  | SpecFloat.S754_finite s m e => Some (if s then Z.neg m else Z.pos m, e)
  | _ => None
  end.


(** The document [json.Marshal] writes for a value ([encode.go]), which is
    what [c.JSON] sends.  A [float64] is written as the literal
    [strconv.AppendFloat] gives in the shortest form that reads back as the
    same float, the parameter [FormatFloat], [None] for an infinity and
    for NaN, which [json.Marshal] refuses; a text is written with its
    invalid UTF-8 replaced by U+FFFD, the parameter [coerce].  The slices
    and maps that the decoder and the handler build are not nil. *)
Section Encoder.
Variable FormatFloat : float -> option string.
Variable coerce : string -> string.

Definition strings_value (l : list string) : value :=
  Array (map (fun s => String (coerce s)) l).

Fixpoint encode (v : any) : value :=
  match v with
  | Nil => Null
  | Bool b => Boolean b
  | Float64 f => match FormatFloat f with Some lit => Number lit | None => Null end
  | Str s => String (coerce s)
  | Int64 n => Number (fmt_d n)
  | Strs l => strings_value l
  | MIMEHeader h =>
    Object (map_fold (fun k l acc => <[coerce k := strings_value l]> acc) ∅ h)
  | Slice l => Array (map encode l)
  | Map m => Object (map_fold (fun k v acc => <[coerce k := encode v]> acc) ∅ m)
  | Maps l =>
    Array (map (fun m => Object (map_fold (fun k v acc => <[coerce k := encode v]> acc) ∅ m)) l)
  end.

(** Whether the value holds a float that cannot be written. *)
Fixpoint unsupported (v : any) : bool :=
  match v with
  | Float64 f => match FormatFloat f with Some _ => false | None => true end
  | Slice l => existsb unsupported l
  | Map m => map_fold (fun _ v acc => unsupported v || acc) false m
  | Maps l => existsb (fun m => map_fold (fun _ v acc => unsupported v || acc) false m) l
  | _ => false
  end.

End Encoder.




End json.


(** ** [net/url]: the URL of a request and its text

    The handlers call [String()] on the URL [net/http] parsed from the
    request line.  The struct has the fields of [url.URL]; [String] and the
    functions it calls follow [net/url] (since Go 1.19, which added
    [OmitHost]). *)

Module url.

Record Userinfo : Type := {
  username : string;
  password : string;
  passwordSet : bool
}.

Record URL : Type := {
  Scheme : string;
  Opaque : string;            (* encoded opaque data *)
  User : option Userinfo;     (* [None] is the nil pointer *)
  Host : string;              (* host or host:port *)
  Path : string;              (* the path, decoded *)
  RawPath : string;           (* encoded path hint *)
  OmitHost : bool;
  ForceQuery : bool;          (* a [?] follows the path even if [RawQuery] is empty *)
  RawQuery : string;          (* encoded query, without [?] *)
  Fragment : string;
  RawFragment : string
}.

(** The encoding modes [String] uses. *)
Inductive encoding : Type := encodePath | encodeHost | encodeUserPassword | encodeFragment.

Definition one_of (c : ascii) (chars : string) : bool :=
  existsb (Ascii.eqb c) (list_ascii_of_string chars).

Definition alphanum (c : ascii) : bool :=
  let n := N_of_ascii c in
  ((N.leb 97 n && N.leb n 122) || (N.leb 65 n && N.leb n 90) || (N.leb 48 n && N.leb n 57))%bool.

(** [shouldEscape(c, mode)] *)
Definition shouldEscape (c : ascii) (mode : encoding) : bool :=
  if alphanum c then false
  else if match mode with encodeHost => true | _ => false end
          && (one_of c "!$&'()*+,;=:[]<>" || Ascii.eqb c (ascii_of_nat 34))
  then false
  else if one_of c "-_.~" then false
  else if one_of c "$&+,/:;=?@"
          && match mode with encodeHost => false | _ => true end
  then match mode with
       | encodePath => Ascii.eqb c "?"
       | encodeUserPassword => one_of c "@/?:"
       | encodeFragment => false
       | encodeHost => true
       end
  else if match mode with encodeFragment => true | _ => false end && one_of c "!()*"
  then false
  else true.

Definition upperhex (n : N) : ascii :=
  if N.ltb n 10 then ascii_of_N (48 + n) else ascii_of_N (55 + n).

(** [escape(s, mode)] for a mode other than the query component: every
    byte to escape becomes [%XX]. *)
Fixpoint escape (s : string) (mode : encoding) : string :=
  match s with
  | EmptyString => EmptyString
  | String c s' =>
    if shouldEscape c mode
    then String "%" (String (upperhex (N.shiftr (N_of_ascii c) 4))
                       (String (upperhex (N.land (N_of_ascii c) 15)) (escape s' mode)))
    else String c (escape s' mode)
  end.

Definition ishex (c : ascii) : bool :=
  let n := N_of_ascii c in
  ((N.leb 48 n && N.leb n 57) || (N.leb 97 n && N.leb n 102) || (N.leb 65 n && N.leb n 70))%bool.

Definition unhex (c : ascii) : N :=
  let n := N_of_ascii c in
  if (N.leb 48 n && N.leb n 57)%bool then (n - 48)%N
  else if (N.leb 97 n && N.leb n 102)%bool then (n - 97 + 10)%N
  else if (N.leb 65 n && N.leb n 70)%bool then (n - 65 + 10)%N
  else 0%N.

(** [unescape(s, mode)] for the path and the fragment: [None] is the
    escape error. *)
Fixpoint unescape (s : string) : option string :=
  match s with
  | EmptyString => Some EmptyString
  | String c s' =>
    if Ascii.eqb c "%" then
      match s' with
      | String h (String l s'') =>
        if ishex h && ishex l
        then option_map (String (ascii_of_N (N.lor (N.shiftl (unhex h) 4) (unhex l))))
                        (unescape s'')
        else None
      | _ => None
      end
    else option_map (String c) (unescape s')
  end.

(** [validEncoded(s, mode)] *)
Fixpoint validEncoded (s : string) (mode : encoding) : bool :=
  match s with
  | EmptyString => true
  | String c s' =>
    (if one_of c "!$&'()*+,;=:@" then true
     else if one_of c "[]" then true
     else if Ascii.eqb c "%" then true
     else negb (shouldEscape c mode))
    && validEncoded s' mode
  end.

(** [u.EscapedPath()] *)
Definition EscapedPath (u : URL) : string :=
  if negb (String.eqb (RawPath u) "") && validEncoded (RawPath u) encodePath
     && match unescape (RawPath u) with
        | Some p => String.eqb p (Path u)
        | None => false
        end
  then RawPath u
  else if String.eqb (Path u) "*" then "*"
  else escape (Path u) encodePath.

(** [u.EscapedFragment()] *)
Definition EscapedFragment (u : URL) : string :=
  if negb (String.eqb (RawFragment u) "") && validEncoded (RawFragment u) encodeFragment
     && match unescape (RawFragment u) with
        | Some f => String.eqb f (Fragment u)
        | None => false
        end
  then RawFragment u
  else escape (Fragment u) encodeFragment.

(** The [String()] method of [*Userinfo], for a pointer that is not nil. *)
Definition Userinfo_String (ui : Userinfo) : string :=
  let s := escape (username ui) encodeUserPassword in
  if passwordSet ui then s ++ ":" ++ escape (password ui) encodeUserPassword else s.

(** The text before the first [/], as [strings.Cut(path, "/")] gives it. *)
Fixpoint first_segment (path : string) : string :=
  match path with
  | EmptyString => EmptyString
  | String c path' => if Ascii.eqb c "/" then EmptyString else String c (first_segment path')
  end.

Definition starts_with_slash (path : string) : bool :=
  match path with
  | String c _ => Ascii.eqb c "/"
  | EmptyString => false
  end.

(** [u.String()].  [buf] is the text written so far. *)
Definition String (u : URL) : string :=
  let buf := if String.eqb (Scheme u) "" then "" else Scheme u ++ ":" in
  let buf :=
    if negb (String.eqb (Opaque u) "") then buf ++ Opaque u
    else
      let buf :=
        if negb (String.eqb (Scheme u) "") || negb (String.eqb (Host u) "")
           || match User u with Some _ => true | None => false end
        then
          if OmitHost u && String.eqb (Host u) ""
             && match User u with Some _ => false | None => true end
          then buf
          else
            let buf :=
              if negb (String.eqb (Host u) "") || negb (String.eqb (Path u) "")
                 || match User u with Some _ => true | None => false end
              then buf ++ "//" else buf in
            let buf :=
              match User u with
              | Some ui => buf ++ Userinfo_String ui ++ "@"
              | None => buf
              end in
            if negb (String.eqb (Host u) "") then buf ++ escape (Host u) encodeHost
            else buf
        else buf in
      let path := EscapedPath u in
      let buf :=
        if negb (String.eqb path "") && negb (starts_with_slash path)
           && negb (String.eqb (Host u) "")
        then buf ++ "/" else buf in
      let buf :=
        if String.eqb buf "" && strings.Contains (first_segment path) ":"
        then buf ++ "./" else buf in
      buf ++ path in
  let buf :=
    if ForceQuery u || negb (String.eqb (RawQuery u) "")
    then buf ++ "?" ++ RawQuery u else buf in
  if negb (String.eqb (Fragment u) "") then buf ++ "#" ++ EscapedFragment u else buf.

(** The URL of a request whose target is [path] or [path?query]. *)
Definition origin (path query : string) : URL :=
  {| Scheme := ""; Opaque := ""; User := None; Host := ""; Path := path; RawPath := "";
     OmitHost := false; ForceQuery := false; RawQuery := query;
     Fragment := ""; RawFragment := "" |}.

End url.

Class NetURL : Type := {
  (** the [String()] method of [url.URL] *)
  URL_String : url.URL -> string
}.

(** ** [io]: the request body as a stream *)

Module io.

(** A reader is the bytes it has not delivered yet and the error it ends
    with ([None] for a clean end of file). *)
Record Reader : Type := { unread : list ascii; failure : error }.

(** [io.ReadAll(r)]: everything up to the end or the first error, and the
    reader after the call, which has nothing left. *)
Definition ReadAll (r : Reader) : (list ascii * error) * Reader :=
  ((unread r, failure r), {| unread := []; failure := failure r |}).

(** [io.NopCloser(bytes.NewBuffer(buf))] *)
Definition NewBuffer (buf : list ascii) : Reader :=
  {| unread := buf; failure := None |}.

End io.

(** ** [mime/multipart], [crypto/tls] and [net/http] data *)

Module multipart.

Record FileHeader : Type := {
  Filename : string;
  Header : gmap string (list string);
  Size : Z;
  content : list ascii;
  tmpfile : string
}.

(** [File] is [None] for a nil map; ranging over a nil [Value] is ranging
    over the empty map. *)
Record Form : Type := {
  Value : gmap string (list string);
  File : option (gmap string (list FileHeader))
}.

End multipart.

Module tls.
Record ConnectionState : Type := { Version : Z; ServerName : string }.
End tls.

Module http.

Record Request : Type := {
  Method : string;
  URL : url.URL;
  Header : gmap string (list string);
  Body : option io.Reader;
  Host : string;
  RemoteAddr : string;
  TLS : option tls.ConnectionState;
  MultipartForm : option multipart.Form
}.

(** [req.Body = b] *)
Definition set_Body (req : Request) (b : option io.Reader) : Request :=
  {| Method := Method req; URL := URL req; Header := Header req; Body := b;
     Host := Host req; RemoteAddr := RemoteAddr req; TLS := TLS req;
     MultipartForm := MultipartForm req |}.

(** [h.Get(key)] for a key in canonical form, as ["Content-Type"] is:
    the first value stored under the key, or the empty string. *)
Definition Get (h : gmap string (list string)) (key : string) : string :=
  match h !! key with
  | Some (v :: _) => v
  | _ => ""
  end.

Definition StatusOK : Z := 200.

End http.

(** [c.GetHeader(key)] of gin *)
Definition GetHeader (req : http.Request) (key : string) : string :=
  http.Get (http.Header req) key.

(** ** The socket layer

    What [net.Listen] / [ListenConfig.Listen] answers for a port is the
    operating system's: a [listen] function gives, for every port, [None]
    when the bind succeeds and [Some m] when it fails with error text [m].
    The probe socket is closed at once, so probing does not change it. *)

Definition listen_fn : Type := Z -> error.

(** What a scan does besides returning: the binds it tried and the lines it
    printed (without the final newline), in order. *)
Inductive event : Type :=
| Bind (port : Z)
| Printed (line : string).

Definition binds (tr : list event) : list Z :=
  omap (fun e => match e with Bind p => Some p | Printed _ => None end) tr.

Definition prints (tr : list event) : list string :=
  omap (fun e => match e with Bind _ => None | Printed line => Some line end) tr.

(** A scan returns Go's pair [(int, error)] together with its events. *)
Definition scan_result : Type := list event * (Z * error).

Definition emit (evs : list event) (r : option scan_result) : option scan_result :=
  match r with
  | Some (tr, v) => Some ((evs ++ tr)%list, v)
  | None => None
  end.

(** ** Start-up

    How [main] ends: with [os.Exit(code)], or serving requests on the
    listener bound to [port] at the address [addr]. *)
Inductive ending : Type :=
| Exit (code : Z)
| Serving (addr : string) (port : Z).

(** The colour codes of lines 154-157; the first byte is ESC. *)
Definition GreenBackground : string := String (ascii_of_nat 27) "[42m".
Definition ResetColor : string := String (ascii_of_nat 27) "[0m".

(** Lines 412-417 (and 703-708, 827-832): on a terminal, [TERM] is set
    when it is empty. *)
Definition setup_term (terminal : bool) (env : gmap string string) : gmap string string :=
  if terminal && (String.length (Getenv env "TERM") =? 0)%nat
  then <["TERM" := "xterm-256color"]> env
  else env.

(** ** The handler code shared by the four revisions

    Lines 28-92, 309-373, 607-671 and 857-921 are the same text. *)

(** What a handler leaves behind: the request with its body stream as the
    handler left it, the status and value given to [c.JSON], and the text
    printed after ["Body: "]. *)
Record Outcome (Info : Type) : Type := {
  request : http.Request;
  status : Z;
  reqInfo : Info;
  bodyStr : string
}.
Arguments request {Info} _.
Arguments status {Info} _.
Arguments reqInfo {Info} _.
Arguments bodyStr {Info} _.

(** Lines 310-313: [headers := make(map[string]string)] and
    [for key, values := range c.Request.Header]; the map made is not nil. *)
Definition fold_headers (h : gmap string (list string)) : gmap string string :=
  map_fold (fun key values headers => <[key := strings.Join values ", "]> headers) ∅ h.

(** Lines 324-330: [for key, values := range c.Request.MultipartForm.Value]. *)
Definition fold_values (vals : gmap string (list string)) (formData : gmap string any)
  : gmap string any :=
  map_fold (fun key values formData =>
              if (length values =? 1)%nat
              then <[key := Str (nth 0 values "")]> formData
              else <[key := Strs values]> formData)
           formData vals.

(** Lines 336-340: the map literal built for one file. *)
Definition file_info (file : multipart.FileHeader) : gmap string any :=
  <["filename" := Str (multipart.Filename file)]>
    (<["size" := Int64 (multipart.Size file)]>
       (<["header" := MIMEHeader (multipart.Header file)]> ∅)).

(** Lines 335-341: [for i, file := range files { fileInfos[i] = ... }]. *)
Fixpoint fill_infos (i : nat) (files : list multipart.FileHeader)
         (fileInfos : list (gmap string any)) : list (gmap string any) :=
  match files with
  | [] => fileInfos
  | file :: rest => fill_infos (S i) rest (<[i := file_info file]> fileInfos)
  end.

(** Lines 333-343: [for key, files := range c.Request.MultipartForm.File];
    [make] gives [len(files)] nil maps. *)
Definition fold_files (fs : gmap string (list multipart.FileHeader))
           (formData : gmap string any) : gmap string any :=
  map_fold (fun key files formData =>
              let fileInfos := replicate (length files) (∅ : gmap string any) in
              <[key := Maps (fill_infos 0 files fileInfos)]> formData)
           formData fs.

(** The test of line 319, giving the file map when it holds. *)
Definition form_with_files (req : http.Request)
  : option (multipart.Form * gmap string (list multipart.FileHeader)) :=
  match http.MultipartForm req with
  | Some form =>
    match multipart.File form with
    | Some fs => Some (form, fs)
    | None => None
    end
  | None => None
  end.

(** Lines 348-353: read the body and put it back. *)
Definition read_body (req : http.Request) : list ascii * http.Request :=
  match http.Body req with
  | Some r =>
    let '((bodyBytes, _), _) := io.ReadAll r in
    (bodyBytes, http.set_Body req (Some (io.NewBuffer bodyBytes)))
  | None => ([], req)
  end.

Section Handler.
Context `{EncodingJSON}.

(** Lines 357-372: [(body, bodyStr)] from the content type and the bytes
    read. *)
Definition decode_body (contentType : string) (bodyBytes : list ascii) : any * string :=
  if strings.Contains contentType "application/json" && (0 <? length bodyBytes)%nat then
    match Unmarshal bodyBytes with
    | Decoded jsonBody =>
      let prettyJSON := MarshalIndent jsonBody "" "  " in
      (jsonBody, string_of_bytes prettyJSON)
    | DecodeError _ =>
      (Str (string_of_bytes bodyBytes), string_of_bytes bodyBytes)
    end
  else (Str (string_of_bytes bodyBytes), string_of_bytes bodyBytes).

(** Lines 346-373, the [else] branch: [(body, bodyStr)] and the request
    afterwards. *)
Definition regular_body (req : http.Request) : (any * string) * http.Request :=
  let '(bodyBytes, req) := read_body req in
  let contentType := GetHeader req "Content-Type" in
  (decode_body contentType bodyBytes, req).

(** Lines 315-373: [(body, bodyStr)] and the request afterwards. *)
Definition read_request_body (req : http.Request) : (any * string) * http.Request :=
  match form_with_files req with
  | Some (form, fs) =>
    let formData := fold_values (multipart.Value form) ∅ in
    let formData := fold_files fs formData in
    ((Map formData, "[Multipart Form Data with Files]"), req)
  | None => regular_body req
  end.

End Handler.

(** ** Rev1 (lines 1-120) *)

Module Rev1.

Record RequestInfo : Type := {
  FullURL : string;
  Method : string;
  Headers : option (gmap string string); (* [None] is the nil map *)
  Body : any
}.

(** The document [c.JSON(http.StatusOK, reqInfo)] writes (line 114): the
    fields of the struct under the names of their tags (lines 15-20);
    [None] when [json.Marshal] refuses the value. *)
Definition JSON (FormatFloat : float -> option string) (coerce : string -> string)
           (obj : RequestInfo) : option json.value :=
  if json.unsupported FormatFloat (Body obj) then None
  else Some (json.Object
               {[ "full_url" := json.String (coerce (FullURL obj));
                  "method" := json.String (coerce (Method obj));
                  "headers" := match Headers obj with
                               | Some h => json.encode FormatFloat coerce (Map (Str <$> h))
                               | None => json.Null
                               end;
                  "body" := json.encode FormatFloat coerce (Body obj) ]}).

Section Handler.
Context `{EncodingJSON} `{NetURL}.

(** The handler registered for [/echo], lines 27-115. *)
Definition echo (req : http.Request) : Outcome RequestInfo :=
  let headers := fold_headers (http.Header req) in
  let '((body, bodyStr), req) := read_request_body req in
  let reqInfo := {| FullURL := URL_String (http.URL req);
                    Method := http.Method req;
                    Headers := Some headers;
                    Body := body |} in
  {| request := req; status := http.StatusOK; reqInfo := reqInfo; bodyStr := bodyStr |}.

End Handler.

End Rev1.

(** ** Rev2 (lines 745-954) *)

Module Rev2.

(** The conflict test of lines 791-792, on the lower-cased error text. *)
Definition conflict (errStr : string) : bool :=
  strings.Contains errStr "address already in use" ||
  strings.Contains errStr "only one usage of each socket address".

(** The [for { ... }] loop of lines 779-800: it has no condition, so the
    code does not bound its iterations; [fuel] bounds the unfolding and
    [None] means the loop is still running. *)
Fixpoint scan (listen : listen_fn) (fuel : nat) (port : Z) : option scan_result :=
  match fuel with
  | O => None
  | S fuel' =>
    match listen port with
    | None => Some ([Bind port], (port, None))
    | Some err =>
      if conflict (strings.ToLower err) then
        emit [Bind port;
              Printed ("Port " ++ fmt_d port ++ " is in use, trying next port...")]
             (scan listen fuel' (incr port))
      else Some ([Bind port], (0, Some err))
    end
  end.

(** [findAvailablePort(startPort)], lines 777-801, run for at most [fuel]
    iterations. *)
Definition findAvailablePort (listen : listen_fn) (fuel : nat) (startPort : Z)
  : option scan_result :=
  scan listen fuel startPort.

(** [getPortFromEnv()], lines 804-823. *)
Definition getPortFromEnv (env : gmap string string) : Z :=
  let portStr := Getenv env "PRISM_PORT" in
  if (String.length portStr =? 0)%nat then 8080
  else
    match strconv.Atoi portStr with
    | (_, Some _) => 8080
    | (port, None) =>
      if (port <=? 0) || (65535 <? port) then 8080 else port
    end.

(** The struct of lines 763-768 is that of lines 15-20 and the handler
    of lines 856-944 is that of lines 27-115. *)
Definition RequestInfo : Type := Rev1.RequestInfo.

Section Handler.
Context `{EncodingJSON} `{NetURL}.

Definition echo (req : http.Request) : Outcome RequestInfo := Rev1.echo req.

End Handler.

End Rev2.

(** The [for i, c := range portStr] loop of lines 259-264 and 564-569: the
    text is cut at the first rune that is not a decimal digit.  A rune in
    ['0'..'9'] is one byte, and any other rune starts with a byte outside
    that range, so this is the longest prefix of digit bytes. *)
Fixpoint numeric_part (portStr : string) : string :=
  match portStr with
  | EmptyString => EmptyString
  | String c rest => if is_digit c then String c (numeric_part rest) else EmptyString
  end.

(** ** Rev3 (lines 493-744) *)

Module Rev3.

(** Lines 527-551 are the text of lines 777-801. *)
Definition conflict : string -> bool := Rev2.conflict.
Definition scan : listen_fn -> nat -> Z -> option scan_result := Rev2.scan.
Definition findAvailablePort (listen : listen_fn) (fuel : nat) (startPort : Z)
  : option scan_result :=
  scan listen fuel startPort.

(** [getPortFromEnv()], lines 554-588. *)
Definition getPortFromEnv (env : gmap string string) : Z :=
  let portStr := Getenv env "PRISM_PORT" in
  if (String.length portStr =? 0)%nat then 8080
  else
    let portStr := strings.TrimSpace portStr in
    let portStr := numeric_part portStr in
    if (String.length portStr =? 0)%nat then 8080
    else
      match strconv.Atoi portStr with
      | (_, Some _) => 8080
      | (port, None) =>
        if (port <=? 0) || (65535 <? port) then 8080 else port
      end.

Record RequestInfo : Type := {
  FullURL : string;
  Method : string;
  Headers : option (gmap string string); (* [None] is the nil map *)
  Body : any;
  ReceivedTime : string
}.

(** The document [c.JSON(http.StatusOK, reqInfo)] writes (lines 400 and
    698): the fields of the struct under the names of their tags (lines
    145-151, 512-518); [None] when [json.Marshal] refuses the value. *)
Definition JSON (FormatFloat : float -> option string) (coerce : string -> string)
           (obj : RequestInfo) : option json.value :=
  if json.unsupported FormatFloat (Body obj) then None
  else Some (json.Object
               {[ "full_url" := json.String (coerce (FullURL obj));
                  "method" := json.String (coerce (Method obj));
                  "headers" := match Headers obj with
                               | Some h => json.encode FormatFloat coerce (Map (Str <$> h))
                               | None => json.Null
                               end;
                  "body" := json.encode FormatFloat coerce (Body obj);
                  "received_time" := json.String (coerce (ReceivedTime obj)) ]}).

Section Handler.
Context `{EncodingJSON} `{NetURL}.

(** [getFullURL(c)], lines 591-603. *)
Definition getFullURL (req : http.Request) : string :=
  let scheme := match http.TLS req with Some _ => "https" | None => "http" end in
  let host := http.Host req in
  let host := if (String.length host =? 0)%nat then http.RemoteAddr req else host in
  scheme ++ "://" ++ host ++ URL_String (http.URL req).

(** [echoHandler(c)], lines 606-699; [now] is
    [time.Now().Format("2006-01-02 15:04:05")]. *)
Definition echoHandler (now : string) (req : http.Request) : Outcome RequestInfo :=
  let headers := fold_headers (http.Header req) in
  let '((body, bodyStr), req) := read_request_body req in
  let fullURL := getFullURL req in
  let reqInfo := {| FullURL := fullURL;
                    Method := http.Method req;
                    Headers := Some headers;
                    Body := body;
                    ReceivedTime := now |} in
  {| request := req; status := http.StatusOK; reqInfo := reqInfo; bodyStr := bodyStr |}.

End Handler.

(** [main()], lines 701-744, from the terminal set-up to [r.Run]: what it
    prints and binds, and how it ends.  [probe] is what the socket layer
    answers while the ports are scanned, [listen] what it answers when
    [r.Run] binds the port found; [fuel] bounds the scan. *)
Definition main (terminal : bool) (env : gmap string string)
           (probe listen : listen_fn) (fuel : nat) : option (list event * ending) :=
  let env := setup_term terminal env in
  let initialPort := getPortFromEnv env in
  let started := [Printed ("Initial port: " ++ fmt_d initialPort)] in
  match findAvailablePort probe fuel initialPort with
  | None => None
  | Some (tr, (_, Some err)) =>
    Some ((started ++ tr ++ [Printed ("Error finding available port: " ++ err)])%list,
          Exit 1)
  | Some (tr, (port, None)) =>
    let notice :=
      if port =? initialPort then []
      else [Printed ("Port " ++ fmt_d initialPort ++ " is in use, using port "
                     ++ fmt_d port ++ " instead")] in
    let serverAddr := ":" ++ fmt_d port in
    let banner :=
      [Printed ("Server is running on " ++ GreenBackground ++ "http://localhost"
                ++ serverAddr ++ ResetColor);
       Printed ("Echo endpoint: " ++ GreenBackground ++ "http://localhost"
                ++ serverAddr ++ "/echo" ++ ResetColor);
       Printed ("Webhook endpoint: " ++ GreenBackground ++ "http://localhost"
                ++ serverAddr ++ "/webhook" ++ ResetColor)] in
    match listen port with
    | Some err =>
      Some ((started ++ tr ++ notice ++ banner
               ++ [Bind port; Printed ("Error starting server: " ++ err)])%list,
            Exit 1)
    | None =>
      Some ((started ++ tr ++ notice ++ banner ++ [Bind port])%list,
            Serving serverAddr port)
    end
  end.

End Rev3.

(** ** Rev4 (lines 121-492) *)

Module Rev4.

Definition maxPort : Z := 65535.
Definition maxAttempts : Z := 100.

(** The conflict test of lines 232-235, on the lower-cased error text. *)
Definition conflict (errStr : string) : bool :=
  strings.Contains errStr "address already in use" ||
  strings.Contains errStr "only one usage of each socket address" ||
  strings.Contains errStr "access permissions".

(** The failure of line 245. *)
Definition exhausted : Z * error :=
  (0, Some ("no available ports found after " ++ fmt_d maxAttempts ++ " attempts")).

(** The [for port <= maxPort && attempts < maxAttempts] loop of lines
    201-243.  [fuel] bounds the unfolding; [None] means it ran out. *)
Fixpoint scan (listen : listen_fn) (fuel : nat) (port attempts : Z)
  : option scan_result :=
  match fuel with
  | O => None
  | S fuel' =>
    if (port <=? maxPort) && (attempts <? maxAttempts) then
      let attempts := incr attempts in
      match listen port with
      | None => Some ([Bind port], (port, None))
      | Some err =>
        let errStr := strings.ToLower err in
        if conflict errStr then
          emit [Bind port;
                Printed ("Port " ++ fmt_d port ++ " is not available ("
                         ++ errStr ++ "), trying next port...")]
               (scan listen fuel' (incr port) attempts)
        else
          Some ([Bind port],
                (0, Some ("error checking port " ++ fmt_d port ++ ": " ++ err)))
      end
    else Some ([], exhausted)
  end.

(** [findAvailablePort(startPort)], lines 195-246.  One unfolding per
    attempt and one more for the test that leaves the loop. *)
Definition findAvailablePort (listen : listen_fn) (startPort : Z)
  : option scan_result :=
  scan listen (S (Z.to_nat maxAttempts)) startPort 0.

(** [getPortFromEnv()], lines 249-283. *)
Definition getPortFromEnv (env : gmap string string) : Z :=
  let portStr := Getenv env "PRISM_PORT" in
  if (String.length portStr =? 0)%nat then 38438
  else
    let portStr := strings.TrimSpace portStr in
    let portStr := numeric_part portStr in
    if (String.length portStr =? 0)%nat then 38438
    else
      match strconv.Atoi portStr with
      | (_, Some _) => 38438
      | (port, None) =>
        if (port <=? 0) || (65535 <? port) then 38438 else port
      end.

(** The struct of lines 145-151 is that of lines 512-518, [getFullURL]
    of lines 286-298 is that of lines 591-603, and [echoHandler] of lines
    301-401 is that of lines 606-699 with the printing sent to the log. *)
Definition RequestInfo : Type := Rev3.RequestInfo.

Section Handler.
Context `{EncodingJSON} `{NetURL}.

Definition getFullURL (req : http.Request) : string := Rev3.getFullURL req.

Definition echoHandler (now : string) (req : http.Request) : Outcome RequestInfo :=
  Rev3.echoHandler now req.

End Handler.

(** [main()], lines 403-492, up to [server.Serve]: what it prints or logs
    and binds, and how it ends.  [logfile] is what [initLogFile()] returns;
    [probe] is what the socket layer answers while the ports are scanned,
    [listen] what it answers when the listener of line 477 is created. *)
Definition main (logfile : error) (terminal : bool) (env : gmap string string)
           (probe listen : listen_fn) : option (list event * ending) :=
  match logfile with
  | Some err => Some ([Printed ("初始化日志文件失败: " ++ err)], Exit 1)
  | None =>
    let env := setup_term terminal env in
    let initialPort := getPortFromEnv env in
    let started := [Printed ("Initial port: " ++ fmt_d initialPort)] in
    match findAvailablePort probe initialPort with
    | None => None
    | Some (tr, (_, Some err)) =>
      Some ((started ++ tr ++ [Printed ("Error finding available port: " ++ err)])%list,
            Exit 1)
    | Some (tr, (port, None)) =>
      let notice :=
        if port =? initialPort then []
        else [Printed ("Port " ++ fmt_d initialPort ++ " is in use, using port "
                       ++ fmt_d port ++ " instead")] in
      let serverAddr := "0.0.0.0:" ++ fmt_d port in
      let banner :=
        [Printed ("Server is running on " ++ GreenBackground ++ "http://"
                  ++ serverAddr ++ ResetColor);
         Printed ("Webhook endpoint: " ++ GreenBackground ++ "http://"
                  ++ serverAddr ++ "/webhook" ++ ResetColor);
         Printed ("Eventbus endpoint: " ++ GreenBackground ++ "http://"
                  ++ serverAddr ++ "/eventbus" ++ ResetColor)] in
      match listen port with
      | Some err =>
        Some ((started ++ tr ++ notice ++ banner
                 ++ [Bind port; Printed ("Error creating listener: " ++ err)])%list,
              Exit 1)
      | None =>
        Some ((started ++ tr ++ notice ++ banner ++ [Bind port])%list,
              Serving serverAddr port)
      end
    end
  end.

End Rev4.

(** ** Stand-ins for the libraries, to run the handlers on examples *)

(** A decoder for the documents [null], [true] and [false], on which it
    agrees with [encoding/json]; it refuses every other text, as
    [encoding/json] refuses a text that is not JSON. *)
Definition json_literals : EncodingJSON := {|
  Unmarshal data :=
    let s := string_of_bytes data in
    if String.eqb s "null" then Decoded Nil
    else if String.eqb s "true" then Decoded (Bool true)
    else if String.eqb s "false" then Decoded (Bool false)
    else DecodeError "invalid character";
  MarshalIndent v _ _ :=
    match v with
    | Nil => bytes_of_string "null"
    | Bool true => bytes_of_string "true"
    | Bool false => bytes_of_string "false"
    | _ => []
    end
|}.

(** The rendering of a URL that has a path and a query only, as the URL of
    a request in origin form has. *)
Definition origin_form : NetURL := {|
  URL_String u :=
    if (String.length (url.RawQuery u) =? 0)%nat then url.Path u
    else url.Path u ++ "?" ++ url.RawQuery u
|}.


(** A machine on which the ports 8080 to 8179 are taken and the others are
    free. *)
Definition busy_8080_8179 : listen_fn :=
  fun p => if (8080 <=? p) && (p <? 8180)
           then Some "listen tcp4 :8080: bind: address already in use" else None.

(** The same machine as the exclusive [tcp4] bind of lines 206-224 finds
    it, with the error text of Windows. *)
Definition busy_exclusive_8080_8179 : listen_fn :=
  fun p => if (8080 <=? p) && (p <? 8180)
           then Some "listen tcp4 :8080: bind: An attempt was made to access a socket in a way forbidden by its access permissions."
           else None.

(** A JSON request with the given host, peer address and body text. *)
Definition json_request (host remote body : string) : http.Request :=
  {| http.Method := "POST";
     http.URL := url.origin "/webhook" "x=1";
     http.Header := {[ "Content-Type" := ["application/json"]; "X-Tag" := ["a"; "a"] ]};
     http.Body := Some {| io.unread := bytes_of_string body; io.failure := None |};
     http.Host := host;
     http.RemoteAddr := remote;
     http.TLS := None;
     http.MultipartForm := None |}.

Definition report_txt : multipart.FileHeader :=
  {| multipart.Filename := "report.txt";
     multipart.Header := {[ "Content-Type" := ["text/plain"] ]};
     multipart.Size := 42;
     multipart.content := bytes_of_string "forty-two bytes of report text, more or less";
     multipart.tmpfile := "" |}.

(** An upload whose form has a text part and a file part of the same name
    [file], and a text part [note]. *)
Definition upload_request : http.Request :=
  {| http.Method := "POST";
     http.URL := url.origin "/webhook" "";
     http.Header := {[ "Content-Type" := ["multipart/form-data; boundary=x"] ]};
     http.Body := Some {| io.unread := []; io.failure := None |};
     http.Host := "example.com";
     http.RemoteAddr := "10.0.0.7:51234";
     http.TLS := None;
     http.MultipartForm :=
       Some {| multipart.Value := {[ "file" := ["x"]; "note" := ["hello"] ]};
               multipart.File := Some {[ "file" := [report_txt] ]} |} |}.


(** The upload of the README (lines 90-93), [curl -F file=@report.txt -F
    name=test]: a file of 42 bytes and a text field, in the multipart
    encoding with the boundary [x]. *)
Definition CRLF : string := String (ascii_of_nat 13) (String (ascii_of_nat 10) "").
Definition quoted (s : string) : string :=
  String (ascii_of_nat 34) s ++ String (ascii_of_nat 34) "".

Definition report_text : string := "forty-two bytes of report text, to the dot".

Definition curl_upload_body : string :=
  "--x" ++ CRLF
  ++ "Content-Disposition: form-data; name=" ++ quoted "file"
  ++ "; filename=" ++ quoted "report.txt" ++ CRLF
  ++ "Content-Type: text/plain" ++ CRLF ++ CRLF
  ++ report_text ++ CRLF
  ++ "--x" ++ CRLF
  ++ "Content-Disposition: form-data; name=" ++ quoted "name" ++ CRLF ++ CRLF
  ++ "test" ++ CRLF
  ++ "--x--" ++ CRLF.

(** The request as [net/http] hands it to the handler, sent to [path]
    ([/webhook] or [/eventbus] in the last revision, [/echo] in the first
    ones): the form is parsed by [ParseMultipartForm] only, which no
    revision calls (nor [FormFile], [PostForm] or another call that
    would), so [MultipartForm] is nil and the body stream is unread. *)
Definition curl_upload (path : string) : http.Request :=
  {| http.Method := "POST";
     http.URL := url.origin path "";
     http.Header := {[ "Content-Type" := ["multipart/form-data; boundary=x"] ]};
     http.Body := Some {| io.unread := bytes_of_string curl_upload_body;
                          io.failure := None |};
     http.Host := "localhost:38438";
     http.RemoteAddr := "127.0.0.1:51234";
     http.TLS := None;
     http.MultipartForm := None |}.

(** The same request had the form been parsed before the handler ran. *)
Definition uploaded_report : multipart.FileHeader :=
  {| multipart.Filename := "report.txt";
     multipart.Header :=
       {[ "Content-Disposition" :=
            ["form-data; name=" ++ quoted "file" ++ "; filename=" ++ quoted "report.txt"];
          "Content-Type" := ["text/plain"] ]};
     multipart.Size := 42;
     multipart.content := bytes_of_string report_text;
     multipart.tmpfile := "" |}.

Definition curl_upload_parsed (path : string) : http.Request :=
  {| http.Method := "POST";
     http.URL := url.origin path "";
     http.Header := {[ "Content-Type" := ["multipart/form-data; boundary=x"] ]};
     http.Body := Some {| io.unread := []; io.failure := None |};
     http.Host := "localhost:38438";
     http.RemoteAddr := "127.0.0.1:51234";
     http.TLS := None;
     http.MultipartForm :=
       Some {| multipart.Value := {[ "name" := ["test"] ]};
               multipart.File := Some {[ "file" := [uploaded_report] ]} |} |}.









(** ** Notions used to state the properties *)

(** A port is occupied when the bind fails with an error of the conflict
    class of the revision. *)
Definition occupied (conflict : string -> bool) (listen : listen_fn) (port : Z) : bool :=
  match listen port with
  | Some err => conflict (strings.ToLower err)
  | None => false
  end.

(** A decimal numeral, read without a bound on its size: an optional sign
    and at least one digit. *)
Definition numeral (s : string) : option Z :=
  let '(neg, digits) := strconv.split_sign s in
  if (String.length digits =? 0)%nat || negb (all_digits digits) then None
  else Some (if neg then - digits_value 0 digits else digits_value 0 digits).

(** The port a text stands for: its value when it is a numeral within
    1..65535, the default otherwise. *)
Definition port_or_default (s : string) (dflt : Z) : Z :=
  match numeral s with
  | Some n => if (1 <=? n) && (n <=? 65535) then n else dflt
  | None => dflt
  end.

(** The bytes that occur in the encodings of white-space runes: the six
    ASCII ones and the bytes from 128 on. *)
Definition space_byte (b : N) : bool :=
  ((N.leb 9 b && N.leb b 13) || N.eqb b 32 || N.leb 128 b)%bool.

(** A text as the byte values [TrimSpace] works on, and back. *)
Definition bytes_N (s : string) : list N := map N_of_ascii (list_ascii_of_string s).
Definition string_N (bs : list N) : string := string_of_list_ascii (map ascii_of_N bs).




(** The bytes a request's body stream has still to deliver. *)
Definition body_bytes (req : http.Request) : list ascii :=
  match http.Body req with
  | Some r => io.unread r
  | None => []
  end.

(** The value stored for a text field, lines 325-329. *)
Definition field_value (values : list string) : any :=
  match values with
  | [v] => Str v
  | _ => Strs values
  end.

(** Two requests agree on the method, the URL, the Host header, whether
    the connection is TLS, the headers, the body bytes and the parsed
    multipart form. *)
Definition same_inputs (r1 r2 : http.Request) : Prop :=
  http.Method r1 = http.Method r2 /\
  http.URL r1 = http.URL r2 /\
  http.Host r1 = http.Host r2 /\
  (is_Some (http.TLS r1) <-> is_Some (http.TLS r2)) /\
  http.Header r1 = http.Header r2 /\
  body_bytes r1 = body_bytes r2 /\
  http.MultipartForm r1 = http.MultipartForm r2.

(** * Properties *)

(** ** Port resolution *)

Lemma incr_small (x : Z) : int_min <= x < int_max -> incr x = x + 1.
Proof.
  unfold incr, int_wrap, int_min, int_max. intros Hx.
  rewrite Z.mod_small; lia.
Qed.

Lemma binds_app (tr1 tr2 : list event) :
  binds (tr1 ++ tr2)%list = (binds tr1 ++ binds tr2)%list.
Proof. unfold binds. apply omap_app. Qed.

Lemma is_int_port (p : Z) : 0 <= p <= 65535 -> is_int p.
Proof. unfold is_int, int_min, int_max. lia. Qed.

Lemma busy_in_range (q : Z) :
  8080 <= q < 8180 ->
  busy_8080_8179 q = Some "listen tcp4 :8080: bind: address already in use".
Proof.
  intros Hq. unfold busy_8080_8179.
  replace (8080 <=? q) with true by (symmetry; apply Z.leb_le; lia).
  replace (q <? 8180) with true by (symmetry; apply Z.ltb_lt; lia).
  reflexivity.
Qed.

Lemma busy_out_of_range (q : Z) : ~ (8080 <= q < 8180) -> busy_8080_8179 q = None.
Proof.
  intros Hq. unfold busy_8080_8179.
  destruct (8080 <=? q) eqn:H1; [|reflexivity].
  destruct (q <? 8180) eqn:H2; [|reflexivity].
  apply Z.leb_le in H1. apply Z.ltb_lt in H2. lia.
Qed.

Section Rev4_scan.
Import Rev4.
Variable listen : listen_fn.

(** The loop of the bounded revision: with more fuel than attempts left
    it returns; it binds at most the attempts left, only ports from
    [port] up to 65535; a port it returns is one of those; and when the
    ports it can reach are all occupied it returns the failure of line
    245. *)
Lemma scan_spec (fuel : nat) :
  forall port attempts,
    0 <= attempts <= maxAttempts -> int_min <= port ->
    (Z.to_nat (maxAttempts - attempts) < fuel)%nat ->
    exists tr r,
      scan listen fuel port attempts = Some (tr, r) /\
      (length (binds tr) <= Z.to_nat (maxAttempts - attempts))%nat /\
      Forall (fun q => port <= q <= maxPort) (binds tr) /\
      (forall q, r = (q, None) -> port <= q <= maxPort) /\
      ((forall q, port <= q < port + (maxAttempts - attempts) -> q <= maxPort ->
                  occupied conflict listen q = true) -> r = exhausted).
Proof.
  induction fuel as [|fuel IH]; intros port attempts Ha Hp Hf; [lia|].
  cbn [scan].
  destruct (port <=? maxPort) eqn:Hport; cycle 1.
  { exists [], exhausted. cbn. split; [reflexivity|]. split; [lia|].
    split; [constructor|]. split; [|reflexivity]. intros q Hq. discriminate Hq. }
  destruct (attempts <? maxAttempts) eqn:Hatt; cycle 1.
  { exists [], exhausted. cbn. split; [reflexivity|]. split; [lia|].
    split; [constructor|]. split; [|reflexivity]. intros q Hq. discriminate Hq. }
  apply Z.leb_le in Hport. apply Z.ltb_lt in Hatt. cbn [andb].
  unfold maxPort, maxAttempts in *.
  destruct (listen port) as [err|] eqn:Hl.
  - destruct (conflict (strings.ToLower err)) eqn:Hc.
    + rewrite (incr_small port), (incr_small attempts)
        by (unfold int_min, int_max in *; lia).
      destruct (IH (port + 1) (attempts + 1)) as (tr & r & Heq & Hlen & Hall & Hok & Hex);
        [lia | lia | lia |].
      rewrite Heq. cbn [emit]. eexists _, r. split; [reflexivity|].
      rewrite binds_app. cbn. split; [lia|]. split; [|split].
      * constructor; [lia|]. eapply Forall_impl; [exact Hall|]. cbn. intros; lia.
      * intros q Hq. specialize (Hok q Hq). lia.
      * intros Hocc. apply Hex. intros q Hq1 Hq2. apply Hocc; lia.
    + eexists _, _. split; [reflexivity|]. cbn. split; [lia|]. split; [|split].
      * constructor; [lia | constructor].
      * intros q Hq. discriminate Hq.
      * intros Hocc. specialize (Hocc port). unfold occupied in Hocc.
        rewrite Hl, Hc in Hocc. discriminate Hocc; lia.
  - eexists _, _. split; [reflexivity|]. cbn. split; [lia|]. split; [|split].
    + constructor; [lia | constructor].
    + intros q Hq. injection Hq as <-. lia.
    + intros Hocc. specialize (Hocc port). unfold occupied in Hocc.
      rewrite Hl in Hocc. discriminate Hocc; lia.
Qed.

End Rev4_scan.

Section Rev2_scan.
Import Rev2.
Variable listen : listen_fn.

(** The loop without a bound moves forward as long as no port above
    65535 is reported as occupied ([net.Listen] refuses such a port as
    invalid before it reaches the operating system). *)
Lemma scan_forward :
  (forall port, 65535 < port -> occupied conflict listen port = false) ->
  forall fuel port tr q,
    int_min <= port ->
    scan listen fuel port = Some (tr, (q, None)) -> port <= q.
Proof.
  intros Hhigh. induction fuel as [|fuel IH]; intros port tr q Hp Hs; [discriminate Hs|].
  cbn [scan] in Hs.
  destruct (listen port) as [err|] eqn:Hl.
  - destruct (conflict (strings.ToLower err)) eqn:Hc.
    + assert (Hport : port <= 65535).
      { destruct (Z_le_gt_dec port 65535) as [Hle|Hgt]; [exact Hle|].
        specialize (Hhigh port ltac:(lia)). unfold occupied in Hhigh.
        rewrite Hl, Hc in Hhigh. discriminate Hhigh. }
      rewrite incr_small in Hs by (unfold int_min, int_max in *; lia).
      destruct (scan listen fuel (port + 1)) as [[tr' r']|] eqn:Hrec; [|discriminate Hs].
      cbn in Hs. injection Hs as _ ->.
      specialize (IH (port + 1) tr' q ltac:(lia) Hrec). lia.
    + discriminate Hs.
  - injection Hs as _ <-. lia.
Qed.

(** With every port occupied the loop without a bound never returns. *)
Lemma scan_never_returns :
  (forall port, occupied conflict listen port = true) ->
  forall fuel port, scan listen fuel port = None.
Proof.
  intros Hocc. induction fuel as [|fuel IH]; intros port; [reflexivity|].
  cbn [scan]. specialize (Hocc port). unfold occupied in Hocc.
  destruct (listen port) as [err|]; [|discriminate Hocc].
  rewrite Hocc, IH. reflexivity.
Qed.

End Rev2_scan.

(** C1, as the code has it.  In the revision with the attempt bound (lines
    195-246), for every starting port [p] (a Go [int]): [findAvailablePort(p)] returns;
    its loop binds at most 100 ports, all of them between [p] and 65535;
    and if every port from [p] to [p + 99] that is not above 65535 is
    occupied, the result is the failure "no available ports found after
    100 attempts". *)
Theorem findAvailablePort_attempt_bound (listen : listen_fn) (p : Z) :
  is_int p ->
  exists tr r,
    Rev4.findAvailablePort listen p = Some (tr, r) /\
    (length (binds tr) <= 100)%nat /\
    Forall (fun q => p <= q <= 65535) (binds tr) /\
    ((forall q, p <= q < p + 100 -> q <= 65535 ->
                occupied Rev4.conflict listen q = true) ->
     r = (0, Some "no available ports found after 100 attempts")).
Proof.
  intros [Hlo Hhi]. unfold Rev4.findAvailablePort.
  destruct (scan_spec listen (S (Z.to_nat Rev4.maxAttempts)) p 0)
    as (tr & r & Heq & Hlen & Hall & _ & Hex).
  - unfold Rev4.maxAttempts. lia.
  - exact Hlo.
  - unfold Rev4.maxAttempts. lia.
  - exists tr, r. split; [exact Heq|]. split; [exact Hlen|]. split; [exact Hall|].
    exact Hex.
Qed.

Lemma findAvailablePort_attempt_bound_witness :
  is_int 8080 /\
  exists tr, Rev4.findAvailablePort busy_8080_8179 8080
             = Some (tr, (0, Some "no available ports found after 100 attempts")).
Proof.
  assert (Hint : is_int 8080) by (apply is_int_port; lia).
  split; [exact Hint|].
  destruct (findAvailablePort_attempt_bound busy_8080_8179 8080 Hint)
    as (tr & r & Heq & _ & _ & Hex).
  exists tr. rewrite Heq, Hex; [reflexivity|].
  intros q Hq _. unfold occupied. rewrite busy_in_range by lia. reflexivity.
Defined.

(** C1 fails on the revisions without the bound (lines 527-551 and
    777-801): with the 100 ports from 8080 occupied and port 8180 free, the
    scan binds 101 ports and returns 8180 with no error. *)
Lemma findAvailablePort_unbounded_passes_100_ports :
  (forall q, 8080 <= q < 8080 + 100 ->
             occupied Rev3.conflict busy_8080_8179 q = true) /\
  option_map snd (Rev3.findAvailablePort busy_8080_8179 101 8080) = Some (8180, None) /\
  option_map (fun r => length (binds (fst r)))
             (Rev3.findAvailablePort busy_8080_8179 101 8080) = Some 101%nat.
Proof.
  split; [|split].
  - intros q Hq. unfold occupied. rewrite busy_in_range by lia. reflexivity.
  - vm_compute. reflexivity.
  - vm_compute. reflexivity.
Qed.

(** C9.  A port that [findAvailablePort(p)] returns with no error is never
    below [p] (a Go [int]): in the bounded revision for every answer of the socket
    layer, in the revisions without the bound as long as no port above
    65535 is reported as occupied. *)
Theorem findAvailablePort_monotone (listen : listen_fn) (p q : Z) :
  is_int p ->
  (forall tr, Rev4.findAvailablePort listen p = Some (tr, (q, None)) -> p <= q) /\
  ((forall port, 65535 < port -> occupied Rev3.conflict listen port = false) ->
   forall fuel tr, Rev3.findAvailablePort listen fuel p = Some (tr, (q, None)) -> p <= q).
Proof.
  intros [Hlo Hhi]. split.
  - intros tr Hs. unfold Rev4.findAvailablePort in Hs.
    destruct (scan_spec listen (S (Z.to_nat Rev4.maxAttempts)) p 0)
      as (tr' & r & Heq & _ & _ & Hok & _).
    + unfold Rev4.maxAttempts. lia.
    + exact Hlo.
    + unfold Rev4.maxAttempts. lia.
    + rewrite Heq in Hs. injection Hs as _ ->. specialize (Hok q eq_refl). lia.
  - intros Hhigh fuel tr Hs.
    exact (scan_forward listen Hhigh fuel p tr q Hlo Hs).
Qed.

Lemma findAvailablePort_monotone_witness :
  is_int 8100 /\
  option_map snd (Rev4.findAvailablePort busy_8080_8179 8100) = Some (8180, None) /\
  option_map snd (Rev3.findAvailablePort busy_8080_8179 81 8100) = Some (8180, None) /\
  8100 <= 8180.
Proof.
  assert (Hint : is_int 8100) by (apply is_int_port; lia).
  split; [exact Hint|].
  split; [vm_compute; reflexivity|]. split; [vm_compute; reflexivity|].
  destruct (findAvailablePort_monotone busy_8080_8179 8100 8180 Hint) as [H4 H3].
  apply (H3 ltac:(intros port Hp; unfold occupied; rewrite busy_out_of_range by lia;
                  reflexivity) 81%nat
            (fst (default ([], (0, None)) (Rev3.findAvailablePort busy_8080_8179 81 8100)))).
  vm_compute. reflexivity.
Defined.

(** ** The port setting *)

Lemma digits_value_nonneg (s : string) :
  forall acc, all_digits s = true -> 0 <= acc -> 0 <= digits_value acc s.
Proof.
  induction s as [|c s IH]; intros acc Hd Hacc; cbn in *; [exact Hacc|].
  apply andb_prop in Hd. destruct Hd as [Hc Hs].
  apply IH; [exact Hs|].
  unfold is_digit in Hc. apply andb_prop in Hc. destruct Hc as [H1 H2].
  apply N.leb_le in H1. apply N.leb_le in H2. lia.
Qed.

(** The conversion and range check shared by the three [getPortFromEnv]
    (lines 271-282, 576-587 and 811-822) give the port the text stands
    for. *)
Lemma checked_port (s : string) (dflt : Z) :
  match strconv.Atoi s with
  | (_, Some _) => dflt
  | (port, None) => if (port <=? 0) || (65535 <? port) then dflt else port
  end = port_or_default s dflt.
Proof.
  unfold strconv.Atoi, port_or_default, numeral.
  destruct (strconv.split_sign s) as [neg digits].
  destruct (String.length digits =? 0)%nat eqn:Hlen; cbn [orb]; [reflexivity|].
  destruct (all_digits digits) eqn:Hd; cbn [negb]; [|reflexivity].
  pose proof (digits_value_nonneg digits 0 Hd ltac:(lia)) as Hnn.
  set (un := digits_value 0 digits) in *.
  unfold int_max, int_min.
  destruct neg; cbn [negb andb].
  - destruct (Z.ltb_spec (- - 2 ^ 63) un) as [Hbig|Hfit].
    + destruct (Z.leb_spec 1 (- un)); [lia|]. reflexivity.
    + destruct (Z.leb_spec (- un) 0); [|lia]. cbn [orb].
      destruct (Z.leb_spec 1 (- un)); [lia|]. reflexivity.
  - destruct (Z.ltb_spec (2 ^ 63 - 1) un) as [Hbig|Hfit].
    + destruct (Z.leb_spec 1 un); [|reflexivity].
      destruct (Z.leb_spec un 65535); [lia|]. reflexivity.
    + destruct (Z.leb_spec un 0), (Z.ltb_spec 65535 un), (Z.leb_spec 1 un),
        (Z.leb_spec un 65535); cbn; try reflexivity; lia.
Qed.

Lemma port_or_default_range (s : string) (dflt : Z) :
  1 <= dflt <= 65535 -> 1 <= port_or_default s dflt <= 65535.
Proof.
  intros Hd. unfold port_or_default.
  destruct (numeral s) as [n|]; [|exact Hd].
  destruct (Z.leb_spec 1 n), (Z.leb_spec n 65535); cbn; lia.
Qed.

Lemma lenient_port (v : string) (dflt : Z) :
  (if (String.length v =? 0)%nat then dflt
   else
     let portStr := numeric_part (strings.TrimSpace v) in
     if (String.length portStr =? 0)%nat then dflt
     else
       match strconv.Atoi portStr with
       | (_, Some _) => dflt
       | (port, None) => if (port <=? 0) || (65535 <? port) then dflt else port
       end)
  = port_or_default (numeric_part (strings.TrimSpace v)) dflt.
Proof.
  destruct v as [|c v]; [reflexivity|]. cbn [String.length Nat.eqb].
  cbv zeta. destruct (numeric_part (strings.TrimSpace (String c v))) as [|d ds] eqn:Hn.
  - reflexivity.
  - cbn [String.length Nat.eqb]. apply checked_port.
Qed.

(** C7, as the code has it.  [getPortFromEnv] never fails and always gives
    a port in 1..65535.  In the first revision that has it (lines 804-823)
    the result is the value of the setting when the setting is a decimal
    numeral within 1..65535 and the default 8080 for every other text.  In
    the later revisions (lines 554-588 and 249-283) the setting is first
    trimmed and cut at its first character that is not a digit, and the
    same rule is applied to what is left, with the defaults 8080 and
    38438. *)
Theorem getPortFromEnv_fallback (env : gmap string string) :
  let v := Getenv env "PRISM_PORT" in
  let cut := numeric_part (strings.TrimSpace v) in
  (Rev2.getPortFromEnv env = port_or_default v 8080 /\
   Rev3.getPortFromEnv env = port_or_default cut 8080 /\
   Rev4.getPortFromEnv env = port_or_default cut 38438) /\
  (1 <= Rev2.getPortFromEnv env <= 65535 /\
   1 <= Rev3.getPortFromEnv env <= 65535 /\
   1 <= Rev4.getPortFromEnv env <= 65535).
Proof.
  intros v cut.
  assert (H2 : Rev2.getPortFromEnv env = port_or_default v 8080).
  { unfold Rev2.getPortFromEnv. fold v.
    destruct v as [|c s]; [reflexivity|]. cbn [String.length Nat.eqb].
    apply checked_port. }
  assert (H3 : Rev3.getPortFromEnv env = port_or_default cut 8080).
  { unfold Rev3.getPortFromEnv. fold v. apply lenient_port. }
  assert (H4 : Rev4.getPortFromEnv env = port_or_default cut 38438).
  { unfold Rev4.getPortFromEnv. fold v. apply lenient_port. }
  split; [split; [exact H2 | split; [exact H3 | exact H4]]|].
  rewrite H2, H3, H4.
  split; [|split]; apply port_or_default_range; lia.
Qed.

(** C7 fails on the later revisions: the setting [3000abc] is not a
    numeral, yet the port is 3000 and not the default. *)
Lemma getPortFromEnv_keeps_leading_digits :
  numeral "3000abc" = None /\
  Rev4.getPortFromEnv {[ "PRISM_PORT" := "3000abc" ]} = 3000 /\
  Rev3.getPortFromEnv {[ "PRISM_PORT" := "3000abc" ]} = 3000.
Proof. split; [|split]; vm_compute; reflexivity. Qed.

(** ** Request normalisation *)

(** Appending texts. *)
Lemma append_assoc (s1 s2 s3 : string) : (s1 ++ s2) ++ s3 = s1 ++ (s2 ++ s3).
Proof.
  induction s1 as [|c s1 IH]; [reflexivity|].
  change (String c ((s1 ++ s2) ++ s3) = String c (s1 ++ (s2 ++ s3))).
  f_equal. exact IH.
Qed.

Lemma append_empty_l (s : string) : "" ++ s = s.
Proof. reflexivity. Qed.

Lemma append_empty_r (s : string) : s ++ "" = s.
Proof.
  induction s as [|c s IH]; [reflexivity|].
  change (String c (s ++ "") = String c s). f_equal. exact IH.
Qed.


(** A loop that stores one entry per key of the map it ranges over: the
    order in which Go visits the keys does not show in the result. *)
Lemma map_fold_insert_lookup {A B : Type}
      (f : string -> A -> gmap string B -> gmap string B) (g : string -> A -> B) :
  (forall k a acc, f k a acc = <[k := g k a]> acc) ->
  forall (init : gmap string B) (m : gmap string A) (k : string),
    map_fold f init m !! k
    = match m !! k with Some a => Some (g k a) | None => init !! k end.
Proof.
  intros Hf init m.
  apply (map_fold_weak_ind
           (fun r m => forall k, r !! k
                       = match m !! k with Some a => Some (g k a) | None => init !! k end)).
  - intros k. rewrite lookup_empty. reflexivity.
  - intros i x m' r Hi IH k. rewrite Hf.
    destruct (decide (i = k)) as [->|Hne].
    + rewrite !lookup_insert_eq. reflexivity.
    + rewrite !lookup_insert_ne by done. apply IH.
Qed.

Lemma fold_headers_lookup (h : gmap string (list string)) (k : string) :
  fold_headers h !! k = (fun values => strings.Join values ", ") <$> h !! k.
Proof.
  unfold fold_headers.
  rewrite (map_fold_insert_lookup _ (fun _ values => strings.Join values ", "))
    by reflexivity.
  destruct (h !! k); reflexivity.
Qed.

Lemma fold_values_lookup (vals : gmap string (list string)) (init : gmap string any)
      (k : string) :
  fold_values vals init !! k
  = match vals !! k with Some values => Some (field_value values) | None => init !! k end.
Proof.
  unfold fold_values.
  apply (map_fold_insert_lookup _ (fun _ values => field_value values)).
  intros key values acc. destruct values as [|v [|v' values]]; reflexivity.
Qed.

Lemma fill_infos_app (files : list multipart.FileHeader) :
  forall (i : nat) (done : list (gmap string any)),
    length done = i ->
    fill_infos i files (done ++ replicate (length files) ∅)%list
    = (done ++ map file_info files)%list.
Proof.
  induction files as [|file rest IH]; intros i done Hlen; cbn.
  - reflexivity.
  - rewrite insert_app_r_alt by lia.
    replace (i - length done)%nat with 0%nat by lia. cbn.
    rewrite (cons_middle _ done), app_assoc.
    rewrite (IH (S i)) by (rewrite length_app; cbn; lia).
    rewrite <- app_assoc. reflexivity.
Qed.

Lemma fill_infos_map (files : list multipart.FileHeader) :
  fill_infos 0 files (replicate (length files) ∅) = map file_info files.
Proof. apply (fill_infos_app files 0 []). reflexivity. Qed.

Lemma fold_files_lookup (fs : gmap string (list multipart.FileHeader))
      (init : gmap string any) (k : string) :
  fold_files fs init !! k
  = match fs !! k with
    | Some files => Some (Maps (map file_info files))
    | None => init !! k
    end.
Proof.
  unfold fold_files.
  apply (map_fold_insert_lookup _ (fun _ files => Maps (map file_info files))).
  intros key files acc. cbv zeta. rewrite fill_infos_map. reflexivity.
Qed.

(** What reading the body gives and leaves. *)
Lemma read_body_spec (req : http.Request) :
  read_body req
  = (body_bytes req,
     match http.Body req with
     | Some r => http.set_Body req (Some (io.NewBuffer (io.unread r)))
     | None => req
     end).
Proof. unfold read_body, body_bytes. destruct (http.Body req); reflexivity. Qed.

Lemma read_body_frame (req : http.Request) :
  let req' := snd (read_body req) in
  http.Method req' = http.Method req /\ http.URL req' = http.URL req /\
  http.Header req' = http.Header req /\ http.Host req' = http.Host req /\
  http.RemoteAddr req' = http.RemoteAddr req /\ http.TLS req' = http.TLS req /\
  http.MultipartForm req' = http.MultipartForm req /\
  body_bytes req' = body_bytes req.
Proof.
  rewrite read_body_spec. unfold body_bytes. cbn.
  destruct (http.Body req) as [r|] eqn:Hb; cbn; rewrite ?Hb; repeat split; reflexivity.
Qed.

Section Handler_facts.
Context `{EncodingJSON} `{NetURL}.

Lemma read_request_body_multipart (req : http.Request) form fs :
  form_with_files req = Some (form, fs) ->
  read_request_body req
  = ((Map (fold_files fs (fold_values (multipart.Value form) ∅)),
      "[Multipart Form Data with Files]"), req).
Proof. intros Hf. unfold read_request_body. rewrite Hf. reflexivity. Qed.

Lemma read_request_body_regular (req : http.Request) :
  form_with_files req = None ->
  read_request_body req
  = (decode_body (GetHeader req "Content-Type") (body_bytes req), snd (read_body req)).
Proof.
  intros Hf. unfold read_request_body, regular_body. rewrite Hf.
  pose proof (read_body_frame req) as Hfr. rewrite read_body_spec in *. cbn in *.
  unfold GetHeader. destruct Hfr as (_ & _ & -> & _). reflexivity.
Qed.

(** Whatever the branch, the handler leaves every field of the request but
    the body stream as it was, and the stream holds the same bytes. *)
Lemma read_request_body_frame (req : http.Request) :
  let req' := snd (read_request_body req) in
  http.Method req' = http.Method req /\ http.URL req' = http.URL req /\
  http.Header req' = http.Header req /\ http.Host req' = http.Host req /\
  http.RemoteAddr req' = http.RemoteAddr req /\ http.TLS req' = http.TLS req /\
  http.MultipartForm req' = http.MultipartForm req /\
  body_bytes req' = body_bytes req.
Proof.
  destruct (form_with_files req) as [[form fs]|] eqn:Hf.
  - rewrite (read_request_body_multipart req form fs Hf). cbn. repeat split; reflexivity.
  - rewrite (read_request_body_regular req Hf). cbn. apply read_body_frame.
Qed.

(** The value given to [c.JSON] by [echoHandler], field by field. *)
Lemma echoHandler_outcome (now : string) (req : http.Request) :
  let out := Rev4.echoHandler now req in
  request out = snd (read_request_body req) /\
  status out = 200 /\
  bodyStr out = snd (fst (read_request_body req)) /\
  Rev3.FullURL (reqInfo out) = Rev3.getFullURL req /\
  Rev3.Method (reqInfo out) = http.Method req /\
  Rev3.Headers (reqInfo out) = Some (fold_headers (http.Header req)) /\
  Rev3.Body (reqInfo out) = fst (fst (read_request_body req)) /\
  Rev3.ReceivedTime (reqInfo out) = now.
Proof.
  pose proof (read_request_body_frame req) as Hfr.
  unfold Rev4.echoHandler, Rev3.echoHandler.
  destruct (read_request_body req) as [[body str] req'] eqn:Hr. cbn in *.
  destruct Hfr as (Hm & Hu & Hh & Hho & Hra & Htls & _ & _).
  unfold Rev3.getFullURL. rewrite Hm, Hu, Hho, Hra, Htls.
  repeat split; reflexivity.
Qed.

(** The same for the handler of the first two revisions. *)
Lemma echo_outcome (req : http.Request) :
  let out := Rev1.echo req in
  request out = snd (read_request_body req) /\
  status out = 200 /\
  bodyStr out = snd (fst (read_request_body req)) /\
  Rev1.FullURL (reqInfo out) = URL_String (http.URL req) /\
  Rev1.Method (reqInfo out) = http.Method req /\
  Rev1.Headers (reqInfo out) = Some (fold_headers (http.Header req)) /\
  Rev1.Body (reqInfo out) = fst (fst (read_request_body req)).
Proof.
  pose proof (read_request_body_frame req) as Hfr.
  unfold Rev1.echo.
  destruct (read_request_body req) as [[body str] req'] eqn:Hr. cbn in *.
  destruct Hfr as (Hm & Hu & _).
  rewrite Hm, Hu. repeat split; reflexivity.
Qed.

Lemma decode_body_json (contentType : string) (bytes : list ascii) (d : any) :
  strings.Contains contentType "application/json" = true ->
  bytes <> [] ->
  Unmarshal bytes = Decoded d ->
  decode_body contentType bytes = (d, string_of_bytes (MarshalIndent d "" "  ")).
Proof.
  intros Hct Hne Hd. unfold decode_body. rewrite Hct, Hd.
  destruct bytes; [contradiction|]. reflexivity.
Qed.

Lemma decode_body_text (contentType : string) (bytes : list ascii) :
  (strings.Contains contentType "application/json" = false \/ bytes = [] \/
   exists msg, Unmarshal bytes = DecodeError msg) ->
  decode_body contentType bytes = (Str (string_of_bytes bytes), string_of_bytes bytes).
Proof.
  intros Hc. unfold decode_body.
  destruct (strings.Contains contentType "application/json"); [|reflexivity].
  destruct bytes as [|b bytes]; [reflexivity|]. cbn.
  destruct Hc as [Hc|[Hc|[msg Hc]]]; [discriminate Hc | discriminate Hc |].
  rewrite Hc. reflexivity.
Qed.

Lemma decode_body_nil (contentType : string) (bytes : list ascii) :
  fst (decode_body contentType bytes) = Nil <->
  strings.Contains contentType "application/json" = true /\ bytes <> [] /\
  Unmarshal bytes = Decoded Nil.
Proof.
  split.
  - unfold decode_body.
    destruct (strings.Contains contentType "application/json"); [|discriminate].
    destruct bytes as [|b bytes]; [discriminate|]. cbn.
    destruct (Unmarshal (b :: bytes)) as [v|msg]; cbn; [|discriminate].
    intros ->. repeat split. discriminate.
  - intros (Hct & Hne & Hd). rewrite (decode_body_json _ _ Nil Hct Hne Hd). reflexivity.
Qed.

Lemma getFullURL_eq (req : http.Request) :
  Rev3.getFullURL req
  = (if decide (is_Some (http.TLS req)) then "https" else "http")
      ++ "://"
      ++ (if String.eqb (http.Host req) "" then http.RemoteAddr req else http.Host req)
      ++ URL_String (http.URL req).
Proof.
  unfold Rev3.getFullURL.
  destruct (http.TLS req) as [cs|]; destruct (http.Host req) as [|c host]; reflexivity.
Qed.

End Handler_facts.






(** A document that survives saves no error when it is stored, what is
    stored for it can be written, and what is written is the same JSON
    value. *)
Section Decoder_facts.
Variable pf : string -> option float.
Variable ff : float -> option string.
Variable coerce : string -> string.




End Decoder_facts.






(** C4.  For a request that has no parsed multipart form with files, whose
    Content-Type contains [application/json] and whose non-empty body does
    not decode as JSON, the handler still answers 200 and the body field is
    the raw bytes as a string, as is the text printed. *)
Theorem malformed_json_falls_back_to_text `{EncodingJSON} `{NetURL}
        (now : string) (req : http.Request) (msg : string) :
  form_with_files req = None ->
  strings.Contains (GetHeader req "Content-Type") "application/json" = true ->
  body_bytes req <> [] ->
  Unmarshal (body_bytes req) = DecodeError msg ->
  status (Rev4.echoHandler now req) = 200 /\
  Rev3.Body (reqInfo (Rev4.echoHandler now req)) = Str (string_of_bytes (body_bytes req)) /\
  bodyStr (Rev4.echoHandler now req) = string_of_bytes (body_bytes req) /\
  Rev1.Body (reqInfo (Rev1.echo req)) = Str (string_of_bytes (body_bytes req)).
Proof.
  intros Hf Hct Hne Hd.
  destruct (echoHandler_outcome now req) as (_ & Hst & Hstr & _ & _ & _ & Hbody & _).
  destruct (echo_outcome req) as (_ & _ & _ & _ & _ & _ & Hbody1).
  rewrite Hst, Hbody, Hstr, Hbody1, (read_request_body_regular req Hf). cbn.
  rewrite decode_body_text by (right; right; exists msg; exact Hd).
  repeat split; reflexivity.
Qed.

Lemma malformed_json_falls_back_to_text_witness :
  Rev3.Body (reqInfo (@Rev4.echoHandler json_literals origin_form "2025-03-01 09:30:00"
                        (json_request "example.com" "10.0.0.7:51234" "{not json")))
  = Str "{not json".
Proof.
  apply (@malformed_json_falls_back_to_text json_literals origin_form "2025-03-01 09:30:00"
           (json_request "example.com" "10.0.0.7:51234" "{not json") "invalid character").
  - reflexivity.
  - vm_compute. reflexivity.
  - discriminate.
  - vm_compute. reflexivity.
Defined.

(** C5.  For a request that has no parsed multipart form with files, the
    body stream the handler leaves holds exactly the bytes the stream held
    on entry: reading it again gives those bytes and a clean end of file,
    although the handler's own read left the original reader empty. *)
Theorem body_replay `{EncodingJSON} `{NetURL} (now : string) (req : http.Request) :
  form_with_files req = None ->
  body_bytes (request (Rev4.echoHandler now req)) = body_bytes req /\
  body_bytes (request (Rev1.echo req)) = body_bytes req /\
  (forall r, http.Body req = Some r ->
     io.unread (snd (io.ReadAll r)) = [] /\
     exists r', http.Body (request (Rev4.echoHandler now req)) = Some r' /\
                fst (io.ReadAll r') = (io.unread r, None)).
Proof.
  intros Hf.
  destruct (echoHandler_outcome now req) as (Hreq & _).
  destruct (echo_outcome req) as (Hreq1 & _).
  rewrite Hreq, Hreq1.
  destruct (read_request_body_frame req) as (_ & _ & _ & _ & _ & _ & _ & Hbytes).
  split; [exact Hbytes|]. split; [exact Hbytes|].
  intros r Hr. split; [reflexivity|].
  rewrite (read_request_body_regular req Hf), read_body_spec, Hr. cbn.
  eexists. split; reflexivity.
Qed.

Lemma body_replay_witness :
  body_bytes (request (@Rev4.echoHandler json_literals origin_form "2025-03-01 09:30:00"
                         (json_request "example.com" "10.0.0.7:51234" "{not json")))
  = bytes_of_string "{not json".
Proof.
  apply (@body_replay json_literals origin_form "2025-03-01 09:30:00"
           (json_request "example.com" "10.0.0.7:51234" "{not json")).
  reflexivity.
Defined.

(** C3.  The upload of the README reaches the handler with no parsed
    form, so the test of line 319 fails and the handler takes the branch of
    lines 346-373: with every decoder and in every revision the body field
    is the whole request body as one text, the 42 bytes of the file
    included, and the text printed is that body, not the fixed text about
    files.  The branch of lines 319-345 would give the mapping the README
    (line 120) promises, had the form been parsed: for the same upload
    with its parsed form the body maps [file] to the record of the file
    and [name] to [test]. *)
Theorem upload_echoes_file_bytes `{EncodingJSON} `{NetURL} (now path : string) :
  http.MultipartForm (curl_upload path) = None /\
  String.length report_text = 42%nat /\
  strings.Contains curl_upload_body report_text = true /\
  Rev3.Body (reqInfo (Rev4.echoHandler now (curl_upload path))) = Str curl_upload_body /\
  bodyStr (Rev4.echoHandler now (curl_upload path)) = curl_upload_body /\
  bodyStr (Rev4.echoHandler now (curl_upload path)) <> "[Multipart Form Data with Files]" /\
  Rev3.Body (reqInfo (Rev3.echoHandler now (curl_upload path))) = Str curl_upload_body /\
  Rev1.Body (reqInfo (Rev1.echo (curl_upload path))) = Str curl_upload_body /\
  Rev1.Body (reqInfo (Rev2.echo (curl_upload path))) = Str curl_upload_body /\
  (exists formData,
      Rev3.Body (reqInfo (Rev4.echoHandler now (curl_upload_parsed path))) = Map formData /\
      formData !! "file" = Some (Maps [file_info uploaded_report]) /\
      formData !! "name" = Some (Str "test") /\
      bodyStr (Rev4.echoHandler now (curl_upload_parsed path))
      = "[Multipart Form Data with Files]").
Proof.
  assert (Hraw : read_request_body (curl_upload path)
                 = ((Str curl_upload_body, curl_upload_body), snd (read_body (curl_upload path)))).
  { rewrite (read_request_body_regular (curl_upload path) eq_refl).
    rewrite decode_body_text by (left; vm_compute; reflexivity).
    assert (Hb : string_of_bytes (body_bytes (curl_upload path)) = curl_upload_body)
      by (vm_compute; reflexivity).
    rewrite Hb. reflexivity. }
  destruct (echoHandler_outcome now (curl_upload path)) as (_ & _ & Hstr & _ & _ & _ & Hbody & _).
  destruct (echo_outcome (curl_upload path)) as (_ & _ & _ & _ & _ & _ & Hbody1).
  assert (Hbody4 : Rev3.Body (reqInfo (Rev4.echoHandler now (curl_upload path)))
                   = Str curl_upload_body) by (rewrite Hbody, Hraw; reflexivity).
  assert (Hstr4 : bodyStr (Rev4.echoHandler now (curl_upload path)) = curl_upload_body)
    by (rewrite Hstr, Hraw; reflexivity).
  split; [reflexivity|]. split; [reflexivity|]. split; [vm_compute; reflexivity|].
  split; [exact Hbody4|]. split; [exact Hstr4|].
  split; [rewrite Hstr4; vm_compute; discriminate|].
  split; [exact Hbody4|].
  rewrite Hraw in Hbody1. cbn [fst] in Hbody1.
  split; [exact Hbody1|]. split; [exact Hbody1|].
  destruct (echoHandler_outcome now (curl_upload_parsed path))
    as (_ & _ & Hstr' & _ & _ & _ & Hbody' & _).
  rewrite Hbody', Hstr'.
  rewrite (read_request_body_multipart (curl_upload_parsed path)
             {| multipart.Value := {[ "name" := ["test"] ]};
                multipart.File := Some {[ "file" := [uploaded_report] ]} |}
             {[ "file" := [uploaded_report] ]} eq_refl).
  eexists. split; [reflexivity|]. split; [|split; [|reflexivity]].
  - rewrite fold_files_lookup, lookup_singleton_eq. reflexivity.
  - rewrite fold_files_lookup, lookup_singleton_ne by discriminate.
    cbn [multipart.Value]. rewrite fold_values_lookup, lookup_singleton_eq. reflexivity.
Qed.










(** C8, as the code has it.  For every request the headers field is a map
    that is not nil (empty when the request has no header), and a request
    with no parsed multipart form with files and no body bytes gets the
    empty string as body.  The body field is nil in one case only: the
    request is handled as JSON and its body decodes to the JSON value
    [null]. *)
Theorem headers_and_body_present `{EncodingJSON} `{NetURL}
        (now : string) (req : http.Request) :
  Rev3.Headers (reqInfo (Rev4.echoHandler now req)) = Some (fold_headers (http.Header req)) /\
  (http.Header req = ∅ ->
     Rev3.Headers (reqInfo (Rev4.echoHandler now req)) = Some ∅) /\
  (form_with_files req = None -> body_bytes req = [] ->
     Rev3.Body (reqInfo (Rev4.echoHandler now req)) = Str "") /\
  (Rev3.Body (reqInfo (Rev4.echoHandler now req)) = Nil <->
     form_with_files req = None /\
     strings.Contains (GetHeader req "Content-Type") "application/json" = true /\
     body_bytes req <> [] /\
     Unmarshal (body_bytes req) = Decoded Nil).
Proof.
  destruct (echoHandler_outcome now req) as (_ & _ & _ & _ & _ & Hhdr & Hbody & _).
  split; [exact Hhdr|]. split; [|split].
  - intros He. rewrite Hhdr, He. reflexivity.
  - intros Hf Hb. rewrite Hbody, (read_request_body_regular req Hf), Hb. cbn.
    rewrite decode_body_text by (right; left; reflexivity). reflexivity.
  - rewrite Hbody. destruct (form_with_files req) as [[form fs]|] eqn:Hf.
    + rewrite (read_request_body_multipart req form fs Hf). cbn.
      split; [discriminate|]. intros (Hn & _). discriminate Hn.
    + rewrite (read_request_body_regular req Hf). cbn. rewrite decode_body_nil.
      split; [intros Hd; split; [reflexivity | exact Hd] | intros (_ & Hd); exact Hd].
Qed.

Lemma headers_and_body_present_witness :
  Rev3.Body (reqInfo (@Rev4.echoHandler json_literals origin_form "2025-03-01 09:30:00"
                        (json_request "example.com" "10.0.0.7:51234" "")))
  = Str "".
Proof.
  apply (@headers_and_body_present json_literals origin_form "2025-03-01 09:30:00"
           (json_request "example.com" "10.0.0.7:51234" "")); reflexivity.
Defined.

(** C8 fails for the JSON document [null]: the body field is nil. *)
Lemma json_null_body_is_nil :
  Rev3.Body (reqInfo (@Rev4.echoHandler json_literals origin_form "2025-03-01 09:30:00"
                        (json_request "example.com" "10.0.0.7:51234" "null")))
  = Nil
  /\ body_bytes (json_request "example.com" "10.0.0.7:51234" "null")
     = bytes_of_string "null".
Proof. split; vm_compute; reflexivity. Qed.

(** C10, as the code has it.  Two requests that agree on the method, the
    URL, the Host header, the TLS flag, the headers, the body bytes and the
    multipart form, and on the remote address when the Host header is
    empty, get the same full URL, method, headers and body, whatever the
    times of the two calls; the received time is the time of the call. *)
Theorem normalization_deterministic `{EncodingJSON} `{NetURL}
        (now1 now2 : string) (r1 r2 : http.Request) :
  same_inputs r1 r2 ->
  (http.Host r1 = "" -> http.RemoteAddr r1 = http.RemoteAddr r2) ->
  Rev3.FullURL (reqInfo (Rev4.echoHandler now1 r1))
  = Rev3.FullURL (reqInfo (Rev4.echoHandler now2 r2)) /\
  Rev3.Method (reqInfo (Rev4.echoHandler now1 r1))
  = Rev3.Method (reqInfo (Rev4.echoHandler now2 r2)) /\
  Rev3.Headers (reqInfo (Rev4.echoHandler now1 r1))
  = Rev3.Headers (reqInfo (Rev4.echoHandler now2 r2)) /\
  Rev3.Body (reqInfo (Rev4.echoHandler now1 r1))
  = Rev3.Body (reqInfo (Rev4.echoHandler now2 r2)) /\
  Rev3.ReceivedTime (reqInfo (Rev4.echoHandler now1 r1)) = now1 /\
  Rev3.ReceivedTime (reqInfo (Rev4.echoHandler now2 r2)) = now2.
Proof.
  intros (Hm & Hu & Hho & Htls & Hh & Hb & Hmf) Hra.
  destruct (echoHandler_outcome now1 r1) as (_ & _ & _ & Hurl1 & Hm1 & Hh1 & Hb1 & Ht1).
  destruct (echoHandler_outcome now2 r2) as (_ & _ & _ & Hurl2 & Hm2 & Hh2 & Hb2 & Ht2).
  rewrite Hurl1, Hurl2, Hm1, Hm2, Hh1, Hh2, Hb1, Hb2, Ht1, Ht2.
  split; [|split; [exact Hm | split; [rewrite Hh; reflexivity | split; [|split; reflexivity]]]].
  - rewrite !getFullURL_eq, <- Hu, <- Hho.
    assert (Hs : (if decide (is_Some (http.TLS r1)) then "https" else "http")
                 = (if decide (is_Some (http.TLS r2)) then "https" else "http")).
    { destruct (decide (is_Some (http.TLS r1))) as [H1|H1],
               (decide (is_Some (http.TLS r2))) as [H2|H2]; tauto. }
    rewrite Hs. destruct (String.eqb_spec (http.Host r1) "") as [He|Hne].
    + rewrite (Hra He). reflexivity.
    + reflexivity.
  - assert (Hff : form_with_files r1 = form_with_files r2).
    { unfold form_with_files. rewrite Hmf. reflexivity. }
    destruct (form_with_files r2) as [[form fs]|] eqn:Hf2.
    + rewrite (read_request_body_multipart r1 form fs Hff),
              (read_request_body_multipart r2 form fs Hf2). reflexivity.
    + rewrite (read_request_body_regular r1 Hff), (read_request_body_regular r2 Hf2).
      unfold GetHeader. rewrite Hh, Hb. reflexivity.
Qed.

Lemma normalization_deterministic_witness :
  Rev3.Body (reqInfo (@Rev4.echoHandler json_literals origin_form "2025-03-01 09:30:00"
                        (json_request "example.com" "10.0.0.7:51234" "true")))
  = Rev3.Body (reqInfo (@Rev4.echoHandler json_literals origin_form "2025-03-01 09:30:59"
                          (json_request "example.com" "10.0.0.8:40000" "true"))).
Proof.
  apply (@normalization_deterministic json_literals origin_form
           "2025-03-01 09:30:00" "2025-03-01 09:30:59"
           (json_request "example.com" "10.0.0.7:51234" "true")
           (json_request "example.com" "10.0.0.8:40000" "true")).
  - unfold same_inputs. cbn. repeat split; intros [cs Hcs]; discriminate Hcs.
  - cbn. discriminate.
Defined.

(** C10 fails when the Host header is empty: two requests that agree on
    every input the claim lists but come from different peers get
    different full URLs. *)
Lemma full_url_depends_on_remote_address :
  same_inputs (json_request "" "10.0.0.7:51234" "true")
              (json_request "" "10.0.0.8:40000" "true") /\
  Rev3.FullURL (reqInfo (@Rev4.echoHandler json_literals origin_form "2025-03-01 09:30:00"
                           (json_request "" "10.0.0.7:51234" "true")))
  = "http://10.0.0.7:51234/webhook?x=1" /\
  Rev3.FullURL (reqInfo (@Rev4.echoHandler json_literals origin_form "2025-03-01 09:30:00"
                           (json_request "" "10.0.0.8:40000" "true")))
  = "http://10.0.0.8:40000/webhook?x=1".
Proof.
  split; [|split; vm_compute; reflexivity].
  unfold same_inputs. cbn. repeat split; intros [cs Hcs]; discriminate Hcs.
Qed.

(** * Further properties of the code *)

(** ** The bounded scan, case by case *)

Lemma prints_app (tr1 tr2 : list event) :
  prints (tr1 ++ tr2)%list = (prints tr1 ++ prints tr2)%list.
Proof. unfold prints. apply omap_app. Qed.

Lemma binds_skip (port : Z) (line : string) (tr : list event) :
  binds (Bind port :: Printed line :: tr) = port :: binds tr.
Proof. reflexivity. Qed.

Lemma prints_skip (port : Z) (line : string) (tr : list event) :
  prints (Bind port :: Printed line :: tr) = line :: prints tr.
Proof. reflexivity. Qed.

Section Rev4_scan_cases.
Import Rev4.
Variable listen : listen_fn.

(** The loop of lines 201-243 skips [n] occupied ports, printing one line
    for each, and then ends in one of three ways: the attempts or the port
    range are used up; the bind of the next port succeeds; or the bind of
    the next port fails with an error outside the conflict class. *)
Lemma scan_cases (fuel : nat) :
  forall port attempts,
    0 <= attempts <= maxAttempts -> int_min <= port ->
    (Z.to_nat (maxAttempts - attempts) < fuel)%nat ->
    exists tr r n,
      scan listen fuel port attempts = Some (tr, r) /\
      0 <= n <= maxAttempts - attempts /\
      (forall x, port <= x < port + n ->
                 x <= maxPort /\ occupied conflict listen x = true) /\
      length (prints tr) = Z.to_nat n /\
      ((r = exhausted /\ binds tr = seqZ port n /\
        (n = maxAttempts - attempts \/ maxPort < port + n))
       \/ (r = (port + n, None) /\ binds tr = seqZ port (n + 1) /\
           listen (port + n) = None /\ port + n <= maxPort /\
           n < maxAttempts - attempts)
       \/ (exists err,
              r = (0, Some ("error checking port " ++ fmt_d (port + n) ++ ": " ++ err)) /\
              binds tr = seqZ port (n + 1) /\
              listen (port + n) = Some err /\
              conflict (strings.ToLower err) = false /\
              port + n <= maxPort /\ n < maxAttempts - attempts)).
Proof.
  induction fuel as [|fuel IH]; intros port attempts Ha Hp Hf; [lia|].
  cbn [scan].
  destruct (port <=? maxPort) eqn:Hport; cycle 1.
  { apply Z.leb_gt in Hport. exists [], exhausted, 0. cbn [andb].
    split; [reflexivity|]. split; [lia|]. split; [intros x Hx; lia|].
    split; [reflexivity|]. left. split; [reflexivity|]. split; [reflexivity|].
    right. lia. }
  destruct (attempts <? maxAttempts) eqn:Hatt; cycle 1.
  { apply Z.ltb_ge in Hatt. exists [], exhausted, 0. cbn [andb].
    split; [reflexivity|]. split; [lia|]. split; [intros x Hx; lia|].
    split; [reflexivity|]. left. split; [reflexivity|]. split; [reflexivity|].
    left. lia. }
  apply Z.leb_le in Hport. apply Z.ltb_lt in Hatt. cbn [andb].
  unfold maxPort, maxAttempts in *.
  destruct (listen port) as [err|] eqn:Hl.
  - destruct (conflict (strings.ToLower err)) eqn:Hc.
    + rewrite (incr_small port), (incr_small attempts)
        by (unfold int_min, int_max in *; lia).
      destruct (IH (port + 1) (attempts + 1))
        as (tr & r & n & Heq & Hn & Hocc & Hpr & Hcases); [lia | lia | lia |].
      rewrite Heq. cbn [emit]. eexists _, r, (n + 1). split; [reflexivity|].
      split; [lia|]. split; [|split].
      * intros x Hx. destruct (Z.eq_dec x port) as [->|Hne].
        -- split; [lia|]. unfold occupied. rewrite Hl. exact Hc.
        -- apply Hocc. lia.
      * rewrite prints_app, length_app, Hpr. cbn. lia.
      * rewrite binds_app. cbn [binds omap app option_bind mbind].
        replace (port + (n + 1)) with (port + 1 + n) by lia.
        destruct Hcases as [(Hr & Hb & Hend)|[(Hr & Hb & Hfree & Hle & Hlt)
                                           |(e & Hr & Hb & He & Hce & Hle & Hlt)]].
        -- left. split; [exact Hr|]. split; [|lia].
           rewrite (seqZ_cons port (n + 1)) by lia. cbn.
           replace (Z.pred (n + 1)) with n by lia.
           replace (Z.succ port) with (port + 1) by lia. rewrite Hb. reflexivity.
        -- right. left. split; [exact Hr|]. split; [|split; [exact Hfree|lia]].
           rewrite (seqZ_cons port (n + 1 + 1)) by lia. cbn.
           replace (Z.pred (n + 1 + 1)) with (n + 1) by lia.
           replace (Z.succ port) with (port + 1) by lia. rewrite Hb. reflexivity.
        -- right. right. exists e. split; [exact Hr|].
           split; [|split; [exact He | split; [exact Hce | lia]]].
           rewrite (seqZ_cons port (n + 1 + 1)) by lia. cbn.
           replace (Z.pred (n + 1 + 1)) with (n + 1) by lia.
           replace (Z.succ port) with (port + 1) by lia. rewrite Hb. reflexivity.
    + eexists _, _, 0. split; [reflexivity|]. split; [lia|].
      split; [intros x Hx; lia|]. split; [reflexivity|].
      right. right. exists err. rewrite Z.add_0_r.
      split; [reflexivity|]. split; [reflexivity|]. split; [exact Hl|].
      split; [exact Hc|]. lia.
  - eexists _, _, 0. split; [reflexivity|]. split; [lia|].
    split; [intros x Hx; lia|]. split; [reflexivity|].
    right. left. rewrite Z.add_0_r.
    split; [reflexivity|]. split; [reflexivity|]. split; [exact Hl|]. lia.
Qed.

End Rev4_scan_cases.

Lemma findAvailablePort_cases (listen : listen_fn) (p : Z) :
  is_int p ->
  exists tr r n,
    Rev4.findAvailablePort listen p = Some (tr, r) /\
    0 <= n <= 100 /\
    (forall x, p <= x < p + n ->
               x <= 65535 /\ occupied Rev4.conflict listen x = true) /\
    length (prints tr) = Z.to_nat n /\
    ((r = Rev4.exhausted /\ binds tr = seqZ p n /\ (n = 100 \/ 65535 < p + n))
     \/ (r = (p + n, None) /\ binds tr = seqZ p (n + 1) /\
         listen (p + n) = None /\ p + n <= 65535 /\ n < 100)
     \/ (exists err,
            r = (0, Some ("error checking port " ++ fmt_d (p + n) ++ ": " ++ err)) /\
            binds tr = seqZ p (n + 1) /\
            listen (p + n) = Some err /\
            Rev4.conflict (strings.ToLower err) = false /\
            p + n <= 65535 /\ n < 100)).
Proof.
  intros [Hlo Hhi]. unfold Rev4.findAvailablePort.
  destruct (scan_cases listen (S (Z.to_nat Rev4.maxAttempts)) p 0)
    as (tr & r & n & Heq & Hn & Hocc & Hpr & Hcases);
    [unfold Rev4.maxAttempts; lia | exact Hlo | unfold Rev4.maxAttempts; lia |].
  unfold Rev4.maxAttempts, Rev4.maxPort in *. rewrite Z.sub_0_r in *.
  exists tr, r, n. split; [exact Heq|]. split; [exact Hn|].
  split; [exact Hocc|]. split; [exact Hpr|]. exact Hcases.
Qed.

Lemma not_occupied_free (conflict : string -> bool) (listen : listen_fn) (x : Z) :
  listen x = None -> occupied conflict listen x = true -> False.
Proof. unfold occupied. intros ->. discriminate. Qed.

Lemma not_occupied_other (conflict : string -> bool) (listen : listen_fn) (x : Z)
      (err : string) :
  listen x = Some err -> conflict (strings.ToLower err) = false ->
  occupied conflict listen x = true -> False.
Proof. unfold occupied. intros -> ->. discriminate. Qed.

(** X1.  A port the bounded [findAvailablePort(p)] returns is the first
    free one: its bind succeeded, every port from [p] up to it is occupied,
    it lies within 65535 and within the 100 attempts, the scan bound
    exactly the ports from [p] to it, in order, and printed one line for
    each port it skipped. *)
Theorem findAvailablePort_returns_first_free (listen : listen_fn) (p q : Z)
        (tr : list event) :
  is_int p ->
  Rev4.findAvailablePort listen p = Some (tr, (q, None)) ->
  listen q = None /\
  p <= q <= 65535 /\ q < p + 100 /\
  (forall x, p <= x < q -> occupied Rev4.conflict listen x = true) /\
  binds tr = seqZ p (q - p + 1) /\
  length (prints tr) = Z.to_nat (q - p).
Proof.
  intros Hint Hs.
  destruct (findAvailablePort_cases listen p Hint)
    as (tr' & r & n & Heq & Hn & Hocc & Hpr & Hcases).
  rewrite Heq in Hs. injection Hs as -> ->.
  destruct Hcases as [(Hr & _)|[(Hr & Hb & Hfree & Hle & Hlt)|(e & Hr & _)]].
  - discriminate Hr.
  - injection Hr as ->.
    replace (p + n - p + 1) with (n + 1) by lia.
    replace (p + n - p) with n by lia.
    split; [exact Hfree|]. split; [lia|]. split; [lia|].
    split; [intros x Hx; apply Hocc; lia|]. split; [exact Hb | exact Hpr].
  - discriminate Hr.
Qed.

Lemma findAvailablePort_returns_first_free_witness :
  busy_8080_8179 8180 = None /\ 8100 <= 8180 <= 65535.
Proof.
  assert (Hint : is_int 8100) by (apply is_int_port; lia).
  destruct (findAvailablePort_returns_first_free busy_8080_8179 8100 8180
              (fst (default ([], (0, None)) (Rev4.findAvailablePort busy_8080_8179 8100)))
              Hint ltac:(vm_compute; reflexivity)) as (Hfree & Hrange & _).
  split; [exact Hfree | exact Hrange].
Defined.

(** X2.  Conversely, when the port [q] is free, is at most 65535, is fewer
    than 100 ports away from [p], and every port from [p] up to it is
    occupied, the bounded [findAvailablePort(p)] returns [q] with no
    error. *)
Theorem findAvailablePort_finds_first_free (listen : listen_fn) (p q : Z) :
  is_int p ->
  p <= q <= 65535 -> q < p + 100 ->
  listen q = None ->
  (forall x, p <= x < q -> occupied Rev4.conflict listen x = true) ->
  exists tr, Rev4.findAvailablePort listen p = Some (tr, (q, None)).
Proof.
  intros Hint Hq Hnear Hfree Hbusy.
  destruct (findAvailablePort_cases listen p Hint)
    as (tr & r & n & Heq & Hn & Hocc & Hpr & Hcases).
  assert (Hnq : n = q - p).
  { destruct (Z.lt_trichotomy n (q - p)) as [Hlt|[Heqn|Hgt]]; [|exact Heqn|].
    - exfalso. destruct Hcases as [(_ & _ & Hend)|[(_ & _ & Hf & _)|(e & _ & _ & He & Hc & _)]].
      + lia.
      + exact (not_occupied_free _ _ _ Hf (Hbusy (p + n) ltac:(lia))).
      + exact (not_occupied_other _ _ _ _ He Hc (Hbusy (p + n) ltac:(lia))).
    - exfalso. destruct (Hocc q ltac:(lia)) as [_ Ho].
      exact (not_occupied_free _ _ _ Hfree Ho). }
  subst n. replace (p + (q - p)) with q in Hcases by lia.
  exists tr. rewrite Heq.
  destruct Hcases as [(_ & _ & Hend)|[(-> & _)|(e & _ & _ & He & _)]].
  - lia.
  - reflexivity.
  - rewrite Hfree in He. discriminate He.
Qed.

Lemma findAvailablePort_finds_first_free_witness :
  exists tr, Rev4.findAvailablePort busy_8080_8179 8100 = Some (tr, (8180, None)).
Proof.
  apply (findAvailablePort_finds_first_free busy_8080_8179 8100 8180).
  - apply is_int_port; lia.
  - lia.
  - lia.
  - apply busy_out_of_range; lia.
  - intros x Hx. unfold occupied. rewrite busy_in_range by lia. reflexivity.
Defined.

(** X3.  When the first port that is not occupied fails to bind with an
    error outside the conflict class, the bounded [findAvailablePort(p)]
    stops there: it returns port 0 and the error "error checking port q:
    ..." that wraps the bind error, and it has bound no port after [q]. *)
Theorem findAvailablePort_stops_on_other_error (listen : listen_fn) (p q : Z)
        (err : string) :
  is_int p ->
  p <= q <= 65535 -> q < p + 100 ->
  listen q = Some err -> Rev4.conflict (strings.ToLower err) = false ->
  (forall x, p <= x < q -> occupied Rev4.conflict listen x = true) ->
  exists tr,
    Rev4.findAvailablePort listen p
    = Some (tr, (0, Some ("error checking port " ++ fmt_d q ++ ": " ++ err))) /\
    binds tr = seqZ p (q - p + 1).
Proof.
  intros Hint Hq Hnear Herr Hclass Hbusy.
  destruct (findAvailablePort_cases listen p Hint)
    as (tr & r & n & Heq & Hn & Hocc & Hpr & Hcases).
  assert (Hnq : n = q - p).
  { destruct (Z.lt_trichotomy n (q - p)) as [Hlt|[Heqn|Hgt]]; [|exact Heqn|].
    - exfalso. destruct Hcases as [(_ & _ & Hend)|[(_ & _ & Hf & _)|(e & _ & _ & He & Hc & _)]].
      + lia.
      + exact (not_occupied_free _ _ _ Hf (Hbusy (p + n) ltac:(lia))).
      + exact (not_occupied_other _ _ _ _ He Hc (Hbusy (p + n) ltac:(lia))).
    - exfalso. destruct (Hocc q ltac:(lia)) as [_ Ho].
      exact (not_occupied_other _ _ _ _ Herr Hclass Ho). }
  subst n. replace (p + (q - p)) with q in Hcases by lia.
  exists tr. rewrite Heq.
  destruct Hcases as [(_ & _ & Hend)|[(_ & _ & Hf & _)|(e & -> & Hb & He & _)]].
  - lia.
  - rewrite Herr in Hf. discriminate Hf.
  - rewrite Herr in He. injection He as <-. split; [reflexivity | exact Hb].
Qed.

(** A machine on which port 8080 is taken and the bind of 8081 is refused
    for a reason outside the conflict class. *)
Lemma findAvailablePort_stops_on_other_error_witness :
  let listen : listen_fn :=
    fun x => if x =? 8080 then Some "bind: address already in use"
             else if x =? 8081 then Some "bind: cannot assign requested address"
             else None in
  exists tr,
    Rev4.findAvailablePort listen 8080
    = Some (tr, (0, Some "error checking port 8081: bind: cannot assign requested address")) /\
    binds tr = [8080; 8081].
Proof.
  intros listen.
  apply (findAvailablePort_stops_on_other_error listen 8080 8081
           "bind: cannot assign requested address").
  - apply is_int_port; lia.
  - lia.
  - lia.
  - reflexivity.
  - vm_compute. reflexivity.
  - intros x Hx. assert (x = 8080) as -> by lia. vm_compute. reflexivity.
Defined.

(** X4.  The bounded [findAvailablePort(p)] fails with "no available ports
    found after 100 attempts" exactly when every port from [p] to [p + 99]
    that is not above 65535 is occupied; this includes every start above
    65535, for which it fails without a single bind. *)
Theorem findAvailablePort_exhausted_iff (listen : listen_fn) (p : Z)
        (tr : list event) (r : Z * error) :
  is_int p ->
  Rev4.findAvailablePort listen p = Some (tr, r) ->
  (r = (0, Some "no available ports found after 100 attempts") <->
   (forall x, p <= x < p + 100 -> x <= 65535 ->
              occupied Rev4.conflict listen x = true)) /\
  (65535 < p -> tr = [] /\ r = (0, Some "no available ports found after 100 attempts")).
Proof.
  intros Hint Hs.
  destruct (findAvailablePort_cases listen p Hint)
    as (tr' & r' & n & Heq & Hn & Hocc & Hpr & Hcases).
  rewrite Heq in Hs. injection Hs as -> ->.
  change (0, Some "no available ports found after 100 attempts") with Rev4.exhausted.
  split; [split|].
  - intros Hr x Hx Hle.
    destruct Hcases as [(_ & _ & Hend)|[(Hr' & _)|(e & Hr' & _)]].
    + apply Hocc. lia.
    + rewrite Hr in Hr'. discriminate Hr'.
    + rewrite Hr in Hr'. discriminate Hr'.
  - intros Hbusy.
    destruct Hcases as [(Hr & _)|[(_ & _ & Hf & Hle & Hlt)|(e & _ & _ & He & Hc & Hle & Hlt)]].
    + exact Hr.
    + exfalso. exact (not_occupied_free _ _ _ Hf (Hbusy (p + n) ltac:(lia) Hle)).
    + exfalso. exact (not_occupied_other _ _ _ _ He Hc (Hbusy (p + n) ltac:(lia) Hle)).
  - intros Hhigh.
    assert (Hn0 : n = 0).
    { destruct (Z.eq_dec n 0) as [H0|H0]; [exact H0|].
      destruct (Hocc p ltac:(lia)) as [Hle _]. lia. }
    subst n.
    destruct Hcases as [(Hr & Hb & _)|[(_ & _ & _ & Hle & _)|(e & _ & _ & _ & _ & Hle & _)]];
      [|lia|lia].
    split; [|exact Hr].
    destruct tr as [|ev tr]; [reflexivity|].
    destruct ev as [port|line]; [discriminate Hb | discriminate Hpr].
Qed.

Lemma findAvailablePort_exhausted_iff_witness :
  Rev4.findAvailablePort busy_8080_8179 70000
  = Some ([], (0, Some "no available ports found after 100 attempts")).
Proof.
  assert (Hint : is_int 70000) by (unfold is_int, int_min, int_max; lia).
  destruct (Rev4.findAvailablePort busy_8080_8179 70000) as [[tr r]|] eqn:Hs;
    [|vm_compute in Hs; discriminate Hs].
  destruct (findAvailablePort_exhausted_iff busy_8080_8179 70000 tr r Hint Hs)
    as [_ Hhigh].
  destruct (Hhigh ltac:(lia)) as [-> ->]. reflexivity.
Defined.

(** ** The scan without a bound *)

Section Rev2_scan_cases.
Import Rev2.
Variable listen : listen_fn.

(** A port the loop returns with no error is one whose bind succeeded. *)
Lemma scan_returns_free (fuel : nat) :
  forall port tr q, scan listen fuel port = Some (tr, (q, None)) -> listen q = None.
Proof.
  induction fuel as [|fuel IH]; intros port tr q Hs; [discriminate Hs|].
  cbn [scan] in Hs. destruct (listen port) as [err|] eqn:Hl.
  - destruct (conflict (strings.ToLower err)); [|discriminate Hs].
    destruct (scan listen fuel (incr port)) as [[tr' r']|] eqn:Hrec; [|discriminate Hs].
    cbn in Hs. injection Hs as _ ->. exact (IH _ _ _ Hrec).
  - injection Hs as _ <-. exact Hl.
Qed.

(** Skipping [n] occupied ports: the loop started at [port] with more than
    [n] iterations of fuel goes on as the loop started at [port + n]. *)
Lemma scan_skips (n : nat) :
  forall fuel port,
    int_min <= port -> port + Z.of_nat n <= int_max ->
    (forall x, port <= x < port + Z.of_nat n -> occupied conflict listen x = true) ->
    exists evs,
      scan listen (n + fuel) port = emit evs (scan listen fuel (port + Z.of_nat n)) /\
      binds evs = seqZ port (Z.of_nat n) /\ length (prints evs) = n.
Proof.
  induction n as [|n IH]; intros fuel port Hlo Hhi Hocc.
  - exists []. rewrite Z.add_0_r. cbn.
    destruct (scan listen fuel port) as [[tr r]|]; split; try reflexivity; split; reflexivity.
  - pose proof (Hocc port ltac:(lia)) as Hp. unfold occupied in Hp.
    cbn [Nat.add scan]. destruct (listen port) as [err|]; [|discriminate Hp].
    rewrite Hp, incr_small by lia.
    destruct (IH fuel (port + 1)) as (evs & Heq & Hb & Hpr);
      [lia | lia | intros x Hx; apply Hocc; lia |].
    rewrite Heq. replace (port + 1 + Z.of_nat n) with (port + Z.of_nat (S n)) by lia.
    eexists (Bind port :: Printed _ :: evs). split; [|split].
    + destruct (scan listen fuel (port + Z.of_nat (S n))) as [[tr r]|]; reflexivity.
    + rewrite binds_skip, Hb.
      rewrite (seqZ_cons port (Z.of_nat (S n))) by lia.
      replace (Z.pred (Z.of_nat (S n))) with (Z.of_nat n) by lia.
      replace (Z.succ port) with (port + 1) by lia. reflexivity.
    + rewrite prints_skip. cbn. rewrite Hpr. reflexivity.
Qed.

(** The ports the loop passed before the port it returns are occupied,
    and it bound them in order. *)
Lemma scan_passed_occupied (fuel : nat) :
  forall port tr q,
    int_min <= port <= q -> q <= int_max ->
    scan listen fuel port = Some (tr, (q, None)) ->
    (forall x, port <= x < q -> occupied conflict listen x = true) /\
    binds tr = seqZ port (q - port + 1).
Proof.
  induction fuel as [|fuel IH]; intros port tr q Hp Hq Hs; [discriminate Hs|].
  pose proof (scan_returns_free (S fuel) port tr q Hs) as Hfree.
  cbn [scan] in Hs. destruct (listen port) as [err|] eqn:Hl.
  - destruct (conflict (strings.ToLower err)) eqn:Hc; [|discriminate Hs].
    assert (Hlt : port < q).
    { destruct (Z.eq_dec port q) as [->|Hne]; [|lia].
      rewrite Hfree in Hl. discriminate Hl. }
    rewrite incr_small in Hs by lia.
    destruct (scan listen fuel (port + 1)) as [[tr' r']|] eqn:Hrec; [|discriminate Hs].
    cbn in Hs. injection Hs as <- ->.
    destruct (IH (port + 1) tr' q ltac:(lia) Hq Hrec) as [Hocc Hb].
    split.
    + intros x Hx. destruct (Z.eq_dec x port) as [->|Hne].
      * unfold occupied. rewrite Hl. exact Hc.
      * apply Hocc. lia.
    + cbn [app]. rewrite binds_skip, Hb.
      rewrite (seqZ_cons port (q - port + 1)) by lia.
      replace (Z.pred (q - port + 1)) with (q - (port + 1) + 1) by lia.
      replace (Z.succ port) with (port + 1) by lia. reflexivity.
  - injection Hs as <- <-. split; [intros x Hx; lia|].
    replace (port - port + 1) with 1 by lia. reflexivity.
Qed.

(** A result of the loop does not change when it is given more fuel. *)
Lemma scan_more_fuel (fuel : nat) :
  forall port r extra,
    scan listen fuel port = Some r -> scan listen (fuel + extra) port = Some r.
Proof.
  induction fuel as [|fuel IH]; intros port r extra Hs; [discriminate Hs|].
  cbn [Nat.add scan] in *. destruct (listen port) as [err|]; [|exact Hs].
  destruct (conflict (strings.ToLower err)); [|exact Hs].
  destruct (scan listen fuel (incr port)) as [r'|] eqn:Hrec; [|discriminate Hs].
  rewrite (IH _ _ extra Hrec). exact Hs.
Qed.

End Rev2_scan_cases.

Lemma conflict_widened (errStr : string) :
  Rev2.conflict errStr = true -> Rev4.conflict errStr = true.
Proof.
  unfold Rev2.conflict, Rev4.conflict. intros H. rewrite H. reflexivity.
Qed.

(** X5.  In the revisions without the attempt bound, when the ports from
    [p] up to [q] are occupied and [q] is free, [findAvailablePort(p)]
    returns [q] with no error after binding exactly the ports from [p] to
    [q], however many they are; the port it returns is always one whose
    bind succeeded. *)
Theorem findAvailablePort_unbounded_finds_first_free (listen : listen_fn) (p q : Z)
        (fuel : nat) :
  is_int p -> p <= q <= int_max ->
  listen q = None ->
  (forall x, p <= x < q -> occupied Rev3.conflict listen x = true) ->
  (Z.to_nat (q - p) < fuel)%nat ->
  (exists tr,
      Rev3.findAvailablePort listen fuel p = Some (tr, (q, None)) /\
      binds tr = seqZ p (q - p + 1) /\
      length (prints tr) = Z.to_nat (q - p)) /\
  (forall fuel' tr' q',
      Rev3.findAvailablePort listen fuel' p = Some (tr', (q', None)) ->
      listen q' = None /\ q' = q).
Proof.
  intros [Hlo Hhi] Hq Hfree Hbusy Hfuel.
  unfold Rev3.findAvailablePort, Rev3.scan.
  assert (Hrun : forall extra,
             exists tr, Rev2.scan listen (Z.to_nat (q - p) + S extra) p = Some (tr, (q, None)) /\
                        binds tr = seqZ p (q - p + 1) /\
                        length (prints tr) = Z.to_nat (q - p)).
  { intros extra.
    destruct (scan_skips listen (Z.to_nat (q - p)) (S extra) p) as (evs & Heq & Hb & Hpr).
    - exact Hlo.
    - lia.
    - intros x Hx. apply Hbusy. lia.
    - rewrite Heq. replace (p + Z.of_nat (Z.to_nat (q - p))) with q by lia.
      cbn [Rev2.scan]. rewrite Hfree. cbn [emit].
      eexists. split; [reflexivity|]. rewrite binds_app, prints_app, length_app, Hb, Hpr.
      cbn. split; [|lia].
      replace (Z.of_nat (Z.to_nat (q - p))) with (q - p) by lia.
      rewrite (seqZ_app p (q - p) 1) by lia.
      replace (p + (q - p)) with q by lia. reflexivity. }
  split.
  - destruct (Hrun (fuel - Z.to_nat (q - p) - 1)%nat) as (tr & Heq & Hb & Hpr).
    replace (Z.to_nat (q - p) + S (fuel - Z.to_nat (q - p) - 1))%nat with fuel in Heq by lia.
    exists tr. split; [exact Heq|]. split; [exact Hb | exact Hpr].
  - intros fuel' tr' q' Hs.
    split; [exact (scan_returns_free listen fuel' p tr' q' Hs)|].
    destruct (Hrun 0%nat) as (tr & Heq & _).
    pose proof (scan_more_fuel listen _ p _ fuel' Heq) as H1.
    pose proof (scan_more_fuel listen _ p _ (Z.to_nat (q - p) + 1)%nat Hs) as H2.
    replace (fuel' + (Z.to_nat (q - p) + 1))%nat
      with (Z.to_nat (q - p) + 1 + fuel')%nat in H2 by lia.
    rewrite H1 in H2. injection H2 as _ H2. symmetry. exact H2.
Qed.

Lemma findAvailablePort_unbounded_finds_first_free_witness :
  exists tr, Rev3.findAvailablePort busy_8080_8179 150 8080 = Some (tr, (8180, None)) /\
             binds tr = seqZ 8080 101.
Proof.
  destruct (findAvailablePort_unbounded_finds_first_free busy_8080_8179 8080 8180 150)
    as [(tr & Heq & Hb & _) _].
  - apply is_int_port; lia.
  - unfold int_max; lia.
  - apply busy_out_of_range; lia.
  - intros x Hx. unfold occupied. rewrite busy_in_range by lia. reflexivity.
  - lia.
  - exists tr. split; [exact Heq | exact Hb].
Defined.

(** X6.  The revisions without the bound bind with [net.Listen] on
    [tcp]; the bounded revision binds on [tcp4] with address reuse turned
    off, so the two scans do not hear the same answers: [tcp] is what the
    socket layer answers to the first, [tcp4] what it answers to the
    second.  Whenever a revision without the bound returns a port [q] that
    is at most 65535 and fewer than 100 ports above [p], and the exclusive
    bind finds the ports from [p] to [q] as the plain bind found them
    ([q] free, every port the plain bind found occupied failing with an
    error of the bounded revision's conflict class), the bounded revision
    returns the same port after the same binds: the bound and the wider
    conflict class change nothing for such a scan. *)
Theorem findAvailablePort_bounded_agrees (tcp tcp4 : listen_fn) (p q : Z)
        (fuel : nat) (tr : list event) :
  is_int p -> p <= q <= 65535 -> q < p + 100 ->
  tcp4 q = None ->
  (forall x, p <= x < q -> occupied Rev3.conflict tcp x = true ->
             occupied Rev4.conflict tcp4 x = true) ->
  Rev3.findAvailablePort tcp fuel p = Some (tr, (q, None)) ->
  exists tr', Rev4.findAvailablePort tcp4 p = Some (tr', (q, None)) /\
              binds tr' = binds tr.
Proof.
  intros Hint Hq Hnear Hfree Halike Hs.
  destruct (scan_passed_occupied tcp fuel p tr q) as [Hbusy3 Hb3];
    [destruct Hint; lia | unfold int_max; lia | exact Hs |].
  assert (Hbusy : forall x, p <= x < q -> occupied Rev4.conflict tcp4 x = true).
  { intros x Hx. apply (Halike x Hx). exact (Hbusy3 x Hx). }
  destruct (findAvailablePort_cases tcp4 p Hint)
    as (tr' & r & n & Heq & Hn & Hocc & Hpr & Hcases).
  assert (Hnq : n = q - p).
  { destruct (Z.lt_trichotomy n (q - p)) as [Hlt|[Heqn|Hgt]]; [|exact Heqn|].
    - exfalso. destruct Hcases as [(_ & _ & Hend)|[(_ & _ & Hf & _)|(e & _ & _ & He & Hc & _)]].
      + lia.
      + exact (not_occupied_free _ _ _ Hf (Hbusy (p + n) ltac:(lia))).
      + exact (not_occupied_other _ _ _ _ He Hc (Hbusy (p + n) ltac:(lia))).
    - exfalso. destruct (Hocc q ltac:(lia)) as [_ Ho].
      exact (not_occupied_free _ _ _ Hfree Ho). }
  subst n. replace (p + (q - p)) with q in Hcases by lia.
  exists tr'. rewrite Heq, Hb3.
  destruct Hcases as [(_ & _ & Hend)|[(-> & Hb & _)|(e & _ & _ & He & _)]].
  - lia.
  - split; [reflexivity | exact Hb].
  - rewrite Hfree in He. discriminate He.
Qed.

Lemma findAvailablePort_bounded_agrees_witness :
  exists tr', Rev4.findAvailablePort busy_exclusive_8080_8179 8100 = Some (tr', (8180, None)).
Proof.
  destruct (findAvailablePort_bounded_agrees busy_8080_8179 busy_exclusive_8080_8179
              8100 8180 81
              (fst (default ([], (0, None)) (Rev3.findAvailablePort busy_8080_8179 81 8100))))
    as (tr' & Heq & _).
  - apply is_int_port; lia.
  - lia.
  - lia.
  - reflexivity.
  - intros x Hx _. unfold occupied, busy_exclusive_8080_8179.
    replace ((8080 <=? x) && (x <? 8180)) with true
      by (symmetry; apply andb_true_iff; split; [apply Z.leb_le | apply Z.ltb_lt]; lia).
    vm_compute. reflexivity.
  - vm_compute. reflexivity.
  - exists tr'. exact Heq.
Defined.


(** X7.  In the revisions without the bound, when the first port that is
    not occupied fails to bind with an error outside their conflict class
    (which has no "access permissions"), [findAvailablePort(p)] returns
    port 0 and that error as it is, and binds no port after it. *)
Theorem findAvailablePort_unbounded_stops_on_other_error (listen : listen_fn) (p q : Z)
        (err : string) (fuel : nat) :
  is_int p -> p <= q <= int_max ->
  listen q = Some err -> Rev3.conflict (strings.ToLower err) = false ->
  (forall x, p <= x < q -> occupied Rev3.conflict listen x = true) ->
  (Z.to_nat (q - p) < fuel)%nat ->
  exists tr,
    Rev3.findAvailablePort listen fuel p = Some (tr, (0, Some err)) /\
    binds tr = seqZ p (q - p + 1).
Proof.
  intros [Hlo Hhi] Hq Herr Hclass Hbusy Hfuel.
  unfold Rev3.findAvailablePort, Rev3.scan.
  destruct (scan_skips listen (Z.to_nat (q - p)) (fuel - Z.to_nat (q - p)) p)
    as (evs & Heq & Hb & Hpr).
  - exact Hlo.
  - lia.
  - intros x Hx. apply Hbusy. lia.
  - replace (Z.to_nat (q - p) + (fuel - Z.to_nat (q - p)))%nat with fuel in Heq by lia.
    rewrite Heq. replace (p + Z.of_nat (Z.to_nat (q - p))) with q by lia.
    destruct (fuel - Z.to_nat (q - p))%nat as [|rest] eqn:Hrest; [lia|].
    cbn [Rev2.scan]. rewrite Herr.
    change (Rev2.conflict (strings.ToLower err)) with (Rev3.conflict (strings.ToLower err)).
    rewrite Hclass. cbn [emit].
    eexists. split; [reflexivity|]. rewrite binds_app, Hb. cbn.
    replace (Z.of_nat (Z.to_nat (q - p))) with (q - p) by lia.
    rewrite (seqZ_app p (q - p) 1) by lia.
    replace (p + (q - p)) with q by lia. reflexivity.
Qed.

Lemma findAvailablePort_unbounded_stops_on_other_error_witness :
  let listen : listen_fn :=
    fun x => if x =? 8080 then Some "bind: address already in use"
             else if x =? 8081
                  then Some "bind: an attempt was made to access a socket in a way forbidden by its access permissions"
                  else None in
  exists tr,
    Rev3.findAvailablePort listen 5 8080
    = Some (tr, (0, Some "bind: an attempt was made to access a socket in a way forbidden by its access permissions")) /\
    binds tr = [8080; 8081].
Proof.
  intros listen.
  apply (findAvailablePort_unbounded_stops_on_other_error listen 8080 8081
           "bind: an attempt was made to access a socket in a way forbidden by its access permissions" 5).
  - apply is_int_port; lia.
  - unfold int_max; lia.
  - reflexivity.
  - vm_compute. reflexivity.
  - intros x Hx. assert (x = 8080) as -> by lia. vm_compute. reflexivity.
  - lia.
Defined.

(** ** Start-up *)

Lemma Getenv_setup_term (terminal : bool) (env : gmap string string) :
  Getenv (setup_term terminal env) "PRISM_PORT" = Getenv env "PRISM_PORT".
Proof.
  unfold setup_term, Getenv.
  destruct (terminal && (String.length (default "" (env !! "TERM")) =? 0)%nat);
    [|reflexivity].
  rewrite lookup_insert_ne by discriminate. reflexivity.
Qed.

Lemma getPortFromEnv_setup_term (terminal : bool) (env : gmap string string) :
  Rev4.getPortFromEnv (setup_term terminal env) = Rev4.getPortFromEnv env.
Proof. unfold Rev4.getPortFromEnv. rewrite Getenv_setup_term. reflexivity. Qed.

Lemma getPortFromEnv_range (env : gmap string string) :
  1 <= Rev4.getPortFromEnv env <= 65535.
Proof.
  unfold Rev4.getPortFromEnv. rewrite lenient_port.
  apply port_or_default_range. lia.
Qed.

(** X8.  When the latest [main] comes to serve, the log file was set up;
    the port served is at least the configured port, at most 65535 and
    fewer than 100 ports above it; the address is 0.0.0.0 with that port;
    the port was free at the probe and at the bind, and every port from
    the configured one up to it was occupied at the probe; and when the
    port is not the configured one, the notice "Port ... is in use, using
    port ... instead" was logged. *)
Theorem main_serves_first_free_port (logfile : error) (terminal : bool)
        (env : gmap string string) (probe listen : listen_fn)
        (log : list event) (addr : string) (q : Z) :
  Rev4.main logfile terminal env probe listen = Some (log, Serving addr q) ->
  logfile = None /\
  1 <= Rev4.getPortFromEnv env <= q /\ q <= 65535 /\
  q < Rev4.getPortFromEnv env + 100 /\
  addr = "0.0.0.0:" ++ fmt_d q /\
  probe q = None /\ listen q = None /\
  (forall x, Rev4.getPortFromEnv env <= x < q ->
             occupied Rev4.conflict probe x = true) /\
  (q <> Rev4.getPortFromEnv env ->
   In (Printed ("Port " ++ fmt_d (Rev4.getPortFromEnv env) ++ " is in use, using port "
                ++ fmt_d q ++ " instead")) log).
Proof.
  unfold Rev4.main. intros Hm.
  destruct logfile as [e|]; [discriminate Hm|].
  rewrite getPortFromEnv_setup_term in Hm.
  pose proof (getPortFromEnv_range env) as Hrange.
  set (p0 := Rev4.getPortFromEnv env) in *.
  destruct (findAvailablePort_cases probe p0 ltac:(apply is_int_port; lia))
    as (tr & r & n & Heq & Hn & Hocc & Hpr & Hcases).
  rewrite Heq in Hm.
  destruct Hcases as [(-> & _)|[(-> & Hb & Hfree & Hle & Hlt)|(e & -> & _)]];
    [discriminate Hm| |discriminate Hm].
  destruct (listen (p0 + n)) as [e|] eqn:Hl; [discriminate Hm|].
  injection Hm as <- <- <-.
  split; [reflexivity|]. split; [lia|]. split; [lia|]. split; [lia|].
  split; [reflexivity|]. split; [exact Hfree|]. split; [exact Hl|].
  split; [intros x Hx; apply Hocc; lia|].
  intros Hne. destruct (Z.eqb_spec (p0 + n) p0) as [Heq0|_]; [contradiction|].
  right. apply in_or_app. right. left. reflexivity.
Qed.

Lemma main_serves_first_free_port_witness :
  busy_8080_8179 8180 = None /\ 8100 <= 8180.
Proof.
  destruct (Rev4.main None true {[ "PRISM_PORT" := "8100" ]} busy_8080_8179 busy_8080_8179)
    as [[log e]|] eqn:Hm; [|vm_compute in Hm; discriminate Hm].
  assert (He : e = Serving "0.0.0.0:8180" 8180).
  { vm_compute in Hm. injection Hm as _ <-. reflexivity. }
  subst e.
  destruct (main_serves_first_free_port None true {[ "PRISM_PORT" := "8100" ]}
              busy_8080_8179 busy_8080_8179 log "0.0.0.0:8180" 8180 Hm)
    as (_ & Hp & _ & _ & _ & Hfree & _).
  assert (Hv : Rev4.getPortFromEnv {[ "PRISM_PORT" := "8100" ]} = 8100)
    by (vm_compute; reflexivity).
  rewrite Hv in Hp. split; [exact Hfree | lia].
Defined.

(** X9.  The set-up of the latest [main] always comes to an end, and the
    only exit code is 1.  It exits without binding any port when the log
    file cannot be set up.  Otherwise, when the first port that is not
    occupied from the configured port on is free, within 65535 and within
    100 attempts, and is still free when the listener is created, [main]
    serves on it, whether standard output is a terminal or not. *)
Theorem main_exits_or_serves (logfile : error) (terminal : bool)
        (env : gmap string string) (probe listen : listen_fn) :
  (exists log e,
      Rev4.main logfile terminal env probe listen = Some (log, e) /\
      (e = Exit 1 \/ exists addr q, e = Serving addr q) /\
      (logfile <> None -> e = Exit 1 /\ binds log = [])) /\
  (forall q,
      logfile = None ->
      Rev4.getPortFromEnv env <= q <= 65535 ->
      q < Rev4.getPortFromEnv env + 100 ->
      probe q = None -> listen q = None ->
      (forall x, Rev4.getPortFromEnv env <= x < q ->
                 occupied Rev4.conflict probe x = true) ->
      exists log,
        Rev4.main logfile terminal env probe listen
        = Some (log, Serving ("0.0.0.0:" ++ fmt_d q) q)).
Proof.
  unfold Rev4.main.
  destruct logfile as [e|].
  { split.
    - eexists _, _. split; [reflexivity|]. split; [left; reflexivity|].
      intros _. split; reflexivity.
    - intros q Hnone. discriminate Hnone. }
  rewrite getPortFromEnv_setup_term.
  pose proof (getPortFromEnv_range env) as Hrange.
  set (p0 := Rev4.getPortFromEnv env) in *.
  destruct (findAvailablePort_cases probe p0 ltac:(apply is_int_port; lia))
    as (tr & r & n & Heq & Hn & Hocc & Hpr & Hcases).
  rewrite Heq. split.
  - destruct Hcases as [(-> & _)|[(-> & _)|(e & -> & _)]].
    + eexists _, _. split; [reflexivity|]. split; [left; reflexivity|].
      intros Hne. contradiction.
    + destruct (listen (p0 + n)) as [e|].
      * eexists _, _. split; [reflexivity|]. split; [left; reflexivity|].
        intros Hne. contradiction.
      * eexists _, _. split; [reflexivity|]. split; [right; eexists _, _; reflexivity|].
        intros Hne. contradiction.
    + eexists _, _. split; [reflexivity|]. split; [left; reflexivity|].
      intros Hne. contradiction.
  - intros q _ Hq Hnear Hfree Hstill Hbusy.
    assert (Hnq : n = q - p0).
    { destruct (Z.lt_trichotomy n (q - p0)) as [Hlt|[Heqn|Hgt]]; [|exact Heqn|].
      - exfalso.
        destruct Hcases as [(_ & _ & Hend)|[(_ & _ & Hf & _)|(e & _ & _ & He & Hc & _)]].
        + lia.
        + exact (not_occupied_free _ _ _ Hf (Hbusy (p0 + n) ltac:(lia))).
        + exact (not_occupied_other _ _ _ _ He Hc (Hbusy (p0 + n) ltac:(lia))).
      - exfalso. destruct (Hocc q ltac:(lia)) as [_ Ho].
        exact (not_occupied_free _ _ _ Hfree Ho). }
    subst n. replace (p0 + (q - p0)) with q in Hcases by lia.
    destruct Hcases as [(_ & _ & Hend)|[(-> & _)|(e & _ & _ & He & _)]].
    + lia.
    + rewrite Hstill. eexists. reflexivity.
    + rewrite Hfree in He. discriminate He.
Qed.

Lemma main_exits_or_serves_witness :
  exists log,
    Rev4.main None false {[ "PRISM_PORT" := "8100" ]} busy_8080_8179 busy_8080_8179
    = Some (log, Serving "0.0.0.0:8180" 8180).
Proof.
  destruct (main_exits_or_serves None false {[ "PRISM_PORT" := "8100" ]}
              busy_8080_8179 busy_8080_8179) as [_ Hserve].
  assert (Hp : Rev4.getPortFromEnv {[ "PRISM_PORT" := "8100" ]} = 8100)
    by (vm_compute; reflexivity).
  rewrite Hp in Hserve.
  apply (Hserve 8180).
  - reflexivity.
  - lia.
  - lia.
  - apply busy_out_of_range; lia.
  - apply busy_out_of_range; lia.
  - intros x Hx. unfold occupied. rewrite busy_in_range by lia. reflexivity.
Defined.

(** ** The port setting, further *)

Lemma is_space_rune_bytes (l : list N) :
  strings.is_space_rune l = true ->
  l <> [] /\ Forall (fun b => space_byte b = true) l.
Proof.
  destruct l as [|a [|b [|c [|d l]]]]; cbn; intros Hs; try discriminate Hs.
  - split; [discriminate|]. constructor; [|constructor].
    unfold space_byte. rewrite Hs. reflexivity.
  - apply andb_prop in Hs. destruct Hs as [Ha Hb]. apply N.eqb_eq in Ha. subst a.
    split; [discriminate|]. constructor; [reflexivity|]. constructor; [|constructor].
    apply orb_prop in Hb. destruct Hb as [Hb|Hb]; apply N.eqb_eq in Hb; subst b;
      reflexivity.
  - split; [discriminate|].
    assert (Ha : space_byte a = true /\ space_byte b = true /\ (128 <= c)%N).
    { repeat (apply orb_prop in Hs; destruct Hs as [Hs|Hs]);
        repeat (match goal with
                | H : (_ && _)%bool = true |- _ =>
                  apply andb_prop in H; destruct H
                | H : (_ || _)%bool = true |- _ =>
                  apply orb_prop in H; destruct H
                | H : N.eqb _ _ = true |- _ => apply N.eqb_eq in H; subst
                | H : N.leb _ _ = true |- _ => apply N.leb_le in H
                end);
        (split; [reflexivity | split; [reflexivity | lia]]). }
    destruct Ha as (Ha & Hb & Hc).
    constructor; [exact Ha|]. constructor; [exact Hb|]. constructor; [|constructor].
    unfold space_byte. apply N.leb_le in Hc. rewrite Hc. apply orb_true_r.
Qed.

Lemma is_space_rune_head (b : N) (l : list N) :
  space_byte b = false -> strings.is_space_rune (b :: l) = false.
Proof.
  intros Hb. destruct (strings.is_space_rune (b :: l)) eqn:Hs; [|reflexivity].
  apply is_space_rune_bytes in Hs. destruct Hs as [_ Hall].
  inversion Hall; subst. congruence.
Qed.

(** A text that starts with a byte of no white-space rune loses nothing on
    the left. *)
Lemma trim_left_stop (fuel : nat) (b : N) (rest : list N) :
  space_byte b = false -> strings.trim_left fuel (b :: rest) = b :: rest.
Proof.
  intros Hb. destruct fuel as [|fuel]; [reflexivity|]. cbn [strings.trim_left].
  unfold strings.space_width. cbn [take].
  rewrite !is_space_rune_head by exact Hb. reflexivity.
Qed.

Lemma space_width_end_rune (bs : list N) (w : nat) :
  strings.space_width_end bs = S w ->
  strings.is_space_rune (drop (length bs - S w) bs) = true.
Proof.
  unfold strings.space_width_end.
  destruct (strings.is_space_rune (drop (length bs - 1) bs)) eqn:H1;
    [intros [= <-]; exact H1|].
  destruct (strings.is_space_rune (drop (length bs - 2) bs)) eqn:H2;
    [intros [= <-]; exact H2|].
  destruct (strings.is_space_rune (drop (length bs - 3) bs)) eqn:H3;
    [intros [= <-]; exact H3|].
  discriminate.
Qed.

(** Trimming on the right never goes past a byte of no white-space rune. *)
Lemma trim_right_keeps (fuel : nat) (pre : list N) (b : N) :
  space_byte b = false ->
  forall rest, exists k,
    strings.trim_right fuel (pre ++ b :: rest)%list = (pre ++ b :: take k rest)%list.
Proof.
  intros Hb. induction fuel as [|fuel IH]; intros rest.
  - exists (length rest). rewrite firstn_all. reflexivity.
  - cbn [strings.trim_right].
    destruct (strings.space_width_end (pre ++ b :: rest)%list) as [|w] eqn:Hw.
    + exists (length rest). rewrite firstn_all. reflexivity.
    + apply space_width_end_rune in Hw. apply is_space_rune_bytes in Hw.
      destruct Hw as [Hne Hall].
      set (m := (length (pre ++ b :: rest)%list - S w)%nat) in *.
      assert (Hm : (length pre < m)%nat).
      { destruct (le_lt_dec m (length pre)) as [Hle|Hlt]; [|exact Hlt].
        rewrite drop_app_le in Hall by exact Hle.
        apply Forall_app in Hall. destruct Hall as [_ Hall].
        inversion Hall; subst. congruence. }
      rewrite take_app_ge by lia.
      replace (m - length pre)%nat with (S (m - length pre - 1)) by lia.
      cbn [take].
      destruct (IH (take (m - length pre - 1) rest)) as [k Hk].
      rewrite Hk. exists (Nat.min k (m - length pre - 1)).
      rewrite take_take. reflexivity.
Qed.

Lemma TrimSpace_unfold (s : string) :
  strings.TrimSpace s
  = string_N (strings.trim_right
                (length (strings.trim_left (length (bytes_N s)) (bytes_N s)))
                (strings.trim_left (length (bytes_N s)) (bytes_N s))).
Proof. reflexivity. Qed.

Lemma list_ascii_of_string_app (s1 s2 : string) :
  list_ascii_of_string (s1 ++ s2) = (list_ascii_of_string s1 ++ list_ascii_of_string s2)%list.
Proof.
  induction s1 as [|c s1 IH]; [reflexivity|].
  change (c :: list_ascii_of_string (s1 ++ s2)
          = c :: (list_ascii_of_string s1 ++ list_ascii_of_string s2)%list).
  f_equal. exact IH.
Qed.

Lemma string_of_list_ascii_app (l1 l2 : list ascii) :
  string_of_list_ascii (l1 ++ l2)%list = string_of_list_ascii l1 ++ string_of_list_ascii l2.
Proof.
  induction l1 as [|c l1 IH]; [reflexivity|].
  change (String c (string_of_list_ascii (l1 ++ l2)%list)
          = String c (string_of_list_ascii l1 ++ string_of_list_ascii l2)).
  f_equal. exact IH.
Qed.

Lemma bytes_round_trip (l : list ascii) : map ascii_of_N (map N_of_ascii l) = l.
Proof.
  induction l as [|a l IH]; [reflexivity|].
  cbn [map]. rewrite ascii_N_embedding, IH. reflexivity.
Qed.

(** What [TrimSpace] leaves of a text that starts with a byte of no
    white-space rune and holds such a byte [c] after [pre]: [pre], [c] and
    a prefix of what follows [c]. *)
Lemma TrimSpace_keeps (c0 : ascii) (s0 pre rest : string) (c : ascii) :
  space_byte (N_of_ascii c0) = false ->
  space_byte (N_of_ascii c) = false ->
  String c0 s0 = pre ++ String c rest ->
  exists k,
    strings.TrimSpace (String c0 s0)
    = pre ++ String c (string_of_list_ascii (take k (list_ascii_of_string rest))).
Proof.
  intros Hc0 Hc Hs. rewrite TrimSpace_unfold.
  change (bytes_N (String c0 s0)) with (N_of_ascii c0 :: bytes_N s0).
  rewrite trim_left_stop by exact Hc0.
  change (N_of_ascii c0 :: bytes_N s0) with (bytes_N (String c0 s0)).
  rewrite Hs. unfold bytes_N at 2. rewrite list_ascii_of_string_app, map_app. cbn [list_ascii_of_string map].
  destruct (trim_right_keeps
              (length (bytes_N (pre ++ String c rest)))
              (map N_of_ascii (list_ascii_of_string pre)) (N_of_ascii c) Hc
              (map N_of_ascii (list_ascii_of_string rest))) as [k Hk].
  rewrite Hk. exists k.
  unfold string_N. rewrite map_app. cbn [map]. rewrite firstn_map.
  rewrite !bytes_round_trip, ascii_N_embedding, string_of_list_ascii_app.
  rewrite string_of_list_ascii_of_string. reflexivity.
Qed.

Lemma digit_not_space (c : ascii) :
  is_digit c = true -> space_byte (N_of_ascii c) = false.
Proof.
  unfold is_digit, space_byte. intros Hd. apply andb_prop in Hd. destruct Hd as [H1 H2].
  apply N.leb_le in H1. apply N.leb_le in H2.
  destruct (N.leb_spec 9 (N_of_ascii c)), (N.leb_spec (N_of_ascii c) 13),
    (N.eqb_spec (N_of_ascii c) 32), (N.leb_spec 128 (N_of_ascii c)); cbn; try reflexivity; lia.
Qed.

(** A text of digits is a text and its last digit. *)
Lemma all_digits_last (s : string) :
  all_digits s = true -> s <> "" ->
  exists pre c, s = pre ++ String c "" /\ all_digits pre = true /\ is_digit c = true.
Proof.
  induction s as [|c s IH]; intros Hd Hne; [contradiction|].
  cbn in Hd. apply andb_prop in Hd. destruct Hd as [Hc Hs].
  destruct s as [|c' s'].
  - exists "", c. split; [reflexivity | split; [reflexivity | exact Hc]].
  - destruct (IH Hs ltac:(discriminate)) as (pre & d & Heq & Hpre & Hd).
    exists (String c pre), d. rewrite Heq.
    split; [reflexivity | split; [|exact Hd]].
    cbn [all_digits]. rewrite Hc, Hpre. reflexivity.
Qed.

Lemma all_digits_app (s t : string) :
  all_digits (s ++ t) = (all_digits s && all_digits t)%bool.
Proof.
  induction s as [|c s IH]; [reflexivity|].
  change (is_digit c && all_digits (s ++ t)
          = (is_digit c && all_digits s) && all_digits t)%bool.
  rewrite IH. apply andb_assoc.
Qed.

Lemma numeric_part_digits (ds t : string) :
  all_digits ds = true -> numeric_part (ds ++ t) = ds ++ numeric_part t.
Proof.
  induction ds as [|c ds IH]; intros Hd; [reflexivity|].
  cbn [all_digits] in Hd. apply andb_prop in Hd. destruct Hd as [Hc Hs].
  change ((if is_digit c then String c (numeric_part (ds ++ t)) else "")
          = String c (ds ++ numeric_part t)).
  rewrite Hc, (IH Hs). reflexivity.
Qed.

(** [TrimSpace] leaves a text of digits as it is. *)
Lemma TrimSpace_digits (v : string) : all_digits v = true -> strings.TrimSpace v = v.
Proof.
  intros Hd. destruct v as [|c0 s0]; [reflexivity|].
  destruct (all_digits_last _ Hd ltac:(discriminate)) as (pre & c & Heq & _ & Hc).
  assert (Hc0 : is_digit c0 = true).
  { cbn in Hd. apply andb_prop in Hd. exact (proj1 Hd). }
  destruct (TrimSpace_keeps c0 s0 pre "" c (digit_not_space _ Hc0) (digit_not_space _ Hc) Heq)
    as [k Hk].
  rewrite Hk, Heq. cbn. rewrite firstn_nil. reflexivity.
Qed.

(** The numeric part of a trimmed text that is digits followed by a
    character that is not a digit is those digits. *)
Lemma numeric_part_TrimSpace (ds : string) (c : ascii) (rest : string) :
  all_digits ds = true -> ds <> "" -> is_digit c = false ->
  numeric_part (strings.TrimSpace (ds ++ String c rest)) = ds.
Proof.
  intros Hd Hne Hc.
  destruct (all_digits_last _ Hd Hne) as (pre & d & Heq & Hpre & Hdd).
  destruct ds as [|c0 s0]; [contradiction|].
  assert (Hc0 : is_digit c0 = true).
  { cbn in Hd. apply andb_prop in Hd. exact (proj1 Hd). }
  change (String c0 s0 ++ String c rest) with (String c0 (s0 ++ String c rest)).
  assert (Hs : String c0 (s0 ++ String c rest) = pre ++ String d (String c rest)).
  { change (String c0 (s0 ++ String c rest)) with (String c0 s0 ++ String c rest).
    rewrite Heq, append_assoc. reflexivity. }
  destruct (TrimSpace_keeps c0 (s0 ++ String c rest) pre (String c rest) d
              (digit_not_space _ Hc0) (digit_not_space _ Hdd) Hs) as [k Hk].
  rewrite Hk.
  replace (pre ++ String d (string_of_list_ascii (take k (list_ascii_of_string (String c rest)))))
    with ((pre ++ String d "")
            ++ string_of_list_ascii (take k (list_ascii_of_string (String c rest))))
    by (rewrite append_assoc; reflexivity).
  rewrite <- Heq, numeric_part_digits by exact Hd.
  destruct k as [|k]; cbn; [apply append_empty_r|].
  rewrite Hc. apply append_empty_r.
Qed.

Lemma Getenv_insert (env : gmap string string) (v : string) :
  Getenv (<["PRISM_PORT" := v]> env) "PRISM_PORT" = v.
Proof. unfold Getenv. rewrite lookup_insert_eq. reflexivity. Qed.

Lemma Rev2_port (env : gmap string string) :
  Rev2.getPortFromEnv env = port_or_default (Getenv env "PRISM_PORT") 8080.
Proof.
  unfold Rev2.getPortFromEnv.
  destruct (Getenv env "PRISM_PORT") as [|c s]; [reflexivity|]. apply checked_port.
Qed.

Lemma Rev3_port (env : gmap string string) :
  Rev3.getPortFromEnv env
  = port_or_default (numeric_part (strings.TrimSpace (Getenv env "PRISM_PORT"))) 8080.
Proof. unfold Rev3.getPortFromEnv. apply lenient_port. Qed.

Lemma Rev4_port (env : gmap string string) :
  Rev4.getPortFromEnv env
  = port_or_default (numeric_part (strings.TrimSpace (Getenv env "PRISM_PORT"))) 38438.
Proof. unfold Rev4.getPortFromEnv. apply lenient_port. Qed.

Lemma numeral_not_digits (s : string) (c : ascii) (rest : string) :
  all_digits s = true -> s <> "" -> is_digit c = false ->
  numeral (s ++ String c rest) = None.
Proof.
  intros Hd Hne Hc. destruct s as [|c0 s0]; [contradiction|].
  assert (Hc0 : is_digit c0 = true).
  { cbn in Hd. apply andb_prop in Hd. exact (proj1 Hd). }
  unfold numeral.
  assert (Hsplit : strconv.split_sign (String c0 s0 ++ String c rest)
                   = (false, String c0 s0 ++ String c rest)).
  { cbn. unfold is_digit in Hc0.
    destruct c0 as [[] [] [] [] [] [] [] []]; try reflexivity; discriminate Hc0. }
  rewrite Hsplit. rewrite all_digits_app. cbn [all_digits]. rewrite Hc.
  rewrite !andb_false_r. cbn. reflexivity.
Qed.

(** X10.  In the revisions that cut the setting at its first character
    that is not a digit (lines 256-264 and 561-569), whatever follows the
    leading digits is ignored: the port is the one the digits alone would
    give.  The first revision that reads the setting (lines 804-823)
    refuses such a value and gives 8080. *)
Theorem getPortFromEnv_ignores_trailing_text (env : gmap string string)
        (ds : string) (c : ascii) (rest : string) :
  all_digits ds = true -> ds <> "" -> is_digit c = false ->
  Getenv env "PRISM_PORT" = ds ++ String c rest ->
  Rev4.getPortFromEnv env = Rev4.getPortFromEnv (<["PRISM_PORT" := ds]> env) /\
  Rev3.getPortFromEnv env = Rev3.getPortFromEnv (<["PRISM_PORT" := ds]> env) /\
  Rev2.getPortFromEnv env = 8080.
Proof.
  intros Hd Hne Hc Hv.
  rewrite !Rev4_port, !Rev3_port, Rev2_port, !Getenv_insert, Hv.
  rewrite (numeric_part_TrimSpace ds c rest Hd Hne Hc).
  rewrite (TrimSpace_digits ds Hd).
  replace (numeric_part ds) with ds
    by (rewrite <- (append_empty_r ds) at 2; rewrite numeric_part_digits by exact Hd;
        cbn; rewrite append_empty_r; reflexivity).
  split; [reflexivity|]. split; [reflexivity|].
  unfold port_or_default. rewrite (numeral_not_digits ds c rest Hd Hne Hc). reflexivity.
Qed.

Lemma getPortFromEnv_ignores_trailing_text_witness :
  Rev4.getPortFromEnv {[ "PRISM_PORT" := "3000 # staging" ]}
  = Rev4.getPortFromEnv (<["PRISM_PORT" := "3000"]> {[ "PRISM_PORT" := "3000 # staging" ]}).
Proof.
  apply (getPortFromEnv_ignores_trailing_text
           {[ "PRISM_PORT" := "3000 # staging" ]} "3000" " " "# staging").
  - reflexivity.
  - discriminate.
  - reflexivity.
  - reflexivity.
Defined.

(** X11.  On a setting made of digits only the three [getPortFromEnv]
    agree: the two with default 8080 give the same port, and the one with
    default 38438 gives that port too unless the value is refused, in
    which case each gives its own default. *)
Theorem getPortFromEnv_agree_on_digits (env : gmap string string) :
  all_digits (Getenv env "PRISM_PORT") = true ->
  Rev3.getPortFromEnv env = Rev2.getPortFromEnv env /\
  (Rev4.getPortFromEnv env = Rev2.getPortFromEnv env \/
   (Rev2.getPortFromEnv env = 8080 /\ Rev4.getPortFromEnv env = 38438)).
Proof.
  intros Hd. rewrite Rev4_port, Rev3_port, Rev2_port.
  rewrite (TrimSpace_digits _ Hd).
  replace (numeric_part (Getenv env "PRISM_PORT")) with (Getenv env "PRISM_PORT")
    by (rewrite <- (append_empty_r (Getenv env "PRISM_PORT")) at 2;
        rewrite numeric_part_digits by exact Hd; cbn; rewrite append_empty_r; reflexivity).
  split; [reflexivity|].
  unfold port_or_default. destruct (numeral (Getenv env "PRISM_PORT")) as [n|];
    [|right; split; reflexivity].
  destruct ((1 <=? n) && (n <=? 65535)); [left; reflexivity | right; split; reflexivity].
Qed.

Lemma getPortFromEnv_agree_on_digits_witness :
  Rev3.getPortFromEnv {[ "PRISM_PORT" := "0070000" ]}
  = Rev2.getPortFromEnv {[ "PRISM_PORT" := "0070000" ]}.
Proof.
  apply (getPortFromEnv_agree_on_digits {[ "PRISM_PORT" := "0070000" ]}).
  reflexivity.
Defined.

Lemma numeric_part_all_digits (s : string) : all_digits s = true -> numeric_part s = s.
Proof.
  intros Hd. rewrite <- (append_empty_r s) at 1.
  rewrite numeric_part_digits by exact Hd. apply append_empty_r.
Qed.

Lemma split_sign_digits (s : string) :
  all_digits s = true -> strconv.split_sign s = (false, s).
Proof.
  destruct s as [|c s]; [reflexivity|]. cbn. intros Hd.
  apply andb_prop in Hd. destruct Hd as [Hc _]. unfold is_digit in Hc.
  destruct c as [[] [] [] [] [] [] [] []]; try reflexivity; discriminate Hc.
Qed.

Lemma all_digits_string_of_uint (d : Decimal.uint) :
  all_digits (NilEmpty.string_of_uint d) = true.
Proof. induction d; cbn; auto. Qed.

Lemma digits_value_of_uint_acc (d : Decimal.uint) :
  forall acc : positive,
    digits_value (Z.pos acc) (NilEmpty.string_of_uint d) = Z.pos (Pos.of_uint_acc d acc).
Proof.
  induction d as [|d IH|d IH|d IH|d IH|d IH|d IH|d IH|d IH|d IH|d IH]; intros acc;
    cbn [NilEmpty.string_of_uint digits_value Pos.of_uint_acc];
    [reflexivity|..]; rewrite <- IH; f_equal; cbn; lia.
Qed.

Lemma digits_value_of_uint (d : Decimal.uint) :
  digits_value 0 (NilEmpty.string_of_uint d) = Z.of_N (Pos.of_uint d).
Proof.
  induction d as [|d IH|d IH|d IH|d IH|d IH|d IH|d IH|d IH|d IH|d IH];
    cbn [NilEmpty.string_of_uint digits_value Pos.of_uint];
    [reflexivity | exact IH |..];
    cbn [Z.of_N]; rewrite <- digits_value_of_uint_acc; f_equal.
Qed.

(** [%d] of a positive number is its decimal digits: digits only, with the
    number as value. *)
Lemma fmt_d_digits (n : Z) :
  0 < n -> all_digits (fmt_d n) = true /\ digits_value 0 (fmt_d n) = n /\ fmt_d n <> "".
Proof.
  intros Hn. destruct n as [|p|p]; try lia.
  unfold fmt_d. cbn [Z.to_int NilZero.string_of_int].
  pose proof (Unsigned.to_uint_nonnil p) as Hnil.
  assert (Hs : NilZero.string_of_uint (Pos.to_uint p)
               = NilEmpty.string_of_uint (Pos.to_uint p)).
  { unfold NilZero.string_of_uint. destruct (Pos.to_uint p); [contradiction|..]; reflexivity. }
  rewrite Hs. split; [apply all_digits_string_of_uint|]. split.
  - rewrite digits_value_of_uint, DecimalPos.Unsigned.of_to. reflexivity.
  - destruct (Pos.to_uint p); [contradiction|..]; discriminate.
Qed.

Lemma numeral_digits (s : string) :
  all_digits s = true -> s <> "" -> numeral s = Some (digits_value 0 s).
Proof.
  intros Hd Hne. unfold numeral. rewrite (split_sign_digits s Hd), Hd.
  destruct s; [contradiction|]. reflexivity.
Qed.

(** X12.  A port within 1..65535 written in decimal, as [main] prints it
    with [%d], is read back by every [getPortFromEnv] as that port. *)
Theorem getPortFromEnv_reads_printed_port (env : gmap string string) (n : Z) :
  1 <= n <= 65535 ->
  Getenv env "PRISM_PORT" = fmt_d n ->
  Rev2.getPortFromEnv env = n /\
  Rev3.getPortFromEnv env = n /\
  Rev4.getPortFromEnv env = n.
Proof.
  intros Hn Hv. destruct (fmt_d_digits n ltac:(lia)) as (Hd & Hval & Hne).
  rewrite Rev4_port, Rev3_port, Rev2_port, Hv.
  rewrite (TrimSpace_digits _ Hd), (numeric_part_all_digits _ Hd).
  unfold port_or_default. rewrite (numeral_digits _ Hd Hne), Hval.
  destruct (Z.leb_spec 1 n), (Z.leb_spec n 65535); try lia.
  cbn. repeat split; reflexivity.
Qed.

Lemma getPortFromEnv_reads_printed_port_witness :
  Rev4.getPortFromEnv {[ "PRISM_PORT" := "38439" ]} = 38439.
Proof.
  apply (getPortFromEnv_reads_printed_port {[ "PRISM_PORT" := "38439" ]} 38439).
  - lia.
  - reflexivity.
Defined.

(** X13.  A value that starts with a sign is refused by the revisions that
    cut the setting at its first character that is not a digit: they give
    their default.  The first revision that reads the setting reads a
    plus sign followed by digits as those digits. *)
Theorem getPortFromEnv_signed_value (env : gmap string string) (c : ascii) (rest : string) :
  c = "+"%char \/ c = "-"%char ->
  Getenv env "PRISM_PORT" = String c rest ->
  Rev3.getPortFromEnv env = 8080 /\
  Rev4.getPortFromEnv env = 38438 /\
  (c = "+"%char -> all_digits rest = true ->
   Rev2.getPortFromEnv env = Rev2.getPortFromEnv (<["PRISM_PORT" := rest]> env)).
Proof.
  intros Hc Hv. rewrite Rev4_port, Rev3_port, !Rev2_port, Getenv_insert, Hv.
  assert (Hsp : space_byte (N_of_ascii c) = false /\ is_digit c = false).
  { destruct Hc as [-> | ->]; split; reflexivity. }
  destruct Hsp as [Hsp Hnd].
  destruct (TrimSpace_keeps c rest "" rest c Hsp Hsp eq_refl) as [k Hk].
  rewrite Hk, append_empty_l. cbn [numeric_part]. rewrite Hnd.
  split; [reflexivity|]. split; [reflexivity|].
  intros -> Hd. unfold port_or_default, numeral.
  cbn [strconv.split_sign]. rewrite (split_sign_digits rest Hd). reflexivity.
Qed.

Lemma getPortFromEnv_signed_value_witness :
  Rev4.getPortFromEnv {[ "PRISM_PORT" := "+3000" ]} = 38438 /\
  Rev2.getPortFromEnv {[ "PRISM_PORT" := "+3000" ]} = 3000.
Proof.
  assert (Hv : Getenv {[ "PRISM_PORT" := "+3000" ]} "PRISM_PORT" = String "+" "3000")
    by (vm_compute; reflexivity).
  destruct (getPortFromEnv_signed_value {[ "PRISM_PORT" := "+3000" ]} "+" "3000"
              (or_introl eq_refl) Hv) as (_ & H4 & H2).
  split; [exact H4|]. rewrite (H2 eq_refl eq_refl). vm_compute. reflexivity.
Defined.

Lemma TrimSpace_leading_space (c : ascii) (v : string) :
  strings.is_space_rune [N_of_ascii c] = true ->
  strings.TrimSpace (String c v) = strings.TrimSpace v.
Proof.
  intros Hc. rewrite !TrimSpace_unfold.
  change (bytes_N (String c v)) with (N_of_ascii c :: bytes_N v).
  assert (Hl : strings.trim_left (length (N_of_ascii c :: bytes_N v))
                                 (N_of_ascii c :: bytes_N v)
               = strings.trim_left (length (bytes_N v)) (bytes_N v)).
  { cbn [length strings.trim_left]. unfold strings.space_width at 1. cbn [take].
    change (take 0 (bytes_N v)) with (@nil N). rewrite Hc. reflexivity. }
  rewrite Hl. reflexivity.
Qed.

(** X14.  In the revisions that trim the setting, an ASCII white-space
    character in front of the value changes nothing, also when nothing
    follows it; the first revision that reads the setting refuses such a
    value and gives 8080. *)
Theorem getPortFromEnv_leading_space (env : gmap string string) (c : ascii) (v : string) :
  strings.is_space_rune [N_of_ascii c] = true ->
  Getenv env "PRISM_PORT" = String c v ->
  Rev4.getPortFromEnv env = Rev4.getPortFromEnv (<["PRISM_PORT" := v]> env) /\
  Rev3.getPortFromEnv env = Rev3.getPortFromEnv (<["PRISM_PORT" := v]> env) /\
  Rev2.getPortFromEnv env = 8080.
Proof.
  intros Hc Hv. rewrite !Rev4_port, !Rev3_port, Rev2_port, !Getenv_insert, Hv.
  rewrite (TrimSpace_leading_space c v Hc).
  split; [reflexivity|]. split; [reflexivity|].
  unfold port_or_default, numeral.
  assert (Hs : strconv.split_sign (String c v) = (false, String c v) /\ is_digit c = false).
  { destruct c as [[] [] [] [] [] [] [] []]; try discriminate Hc; split; reflexivity. }
  destruct Hs as [Hs Hnd]. rewrite Hs. cbn [all_digits]. rewrite Hnd. reflexivity.
Qed.

Lemma getPortFromEnv_leading_space_witness :
  Rev3.getPortFromEnv {[ "PRISM_PORT" := " 3000" ]}
  = Rev3.getPortFromEnv (<["PRISM_PORT" := "3000"]> {[ "PRISM_PORT" := " 3000" ]}).
Proof.
  apply (getPortFromEnv_leading_space {[ "PRISM_PORT" := " 3000" ]} " " "3000").
  - reflexivity.
  - reflexivity.
Defined.

(** ** Request normalisation, further *)

Lemma fold_headers_fmap (h : gmap string (list string)) :
  fold_headers h = (fun values => strings.Join values ", ") <$> h.
Proof. apply map_eq. intros k. rewrite fold_headers_lookup, lookup_fmap. reflexivity. Qed.

Lemma fold_values_fmap (vals : gmap string (list string)) :
  fold_values vals ∅ = field_value <$> vals.
Proof.
  apply map_eq. intros k. rewrite fold_values_lookup, lookup_fmap.
  destruct (vals !! k); reflexivity.
Qed.

(** The body and the text printed depend on the request through its
    headers, its body bytes and its parsed form only. *)
Lemma read_request_body_inputs `{EncodingJSON} (r1 r2 : http.Request) :
  http.Header r1 = http.Header r2 ->
  body_bytes r1 = body_bytes r2 ->
  http.MultipartForm r1 = http.MultipartForm r2 ->
  fst (read_request_body r1) = fst (read_request_body r2).
Proof.
  intros Hh Hb Hm.
  assert (Hff : form_with_files r1 = form_with_files r2).
  { unfold form_with_files. rewrite Hm. reflexivity. }
  destruct (form_with_files r2) as [[form fs]|] eqn:Hf2.
  - rewrite (read_request_body_multipart r1 form fs Hff),
            (read_request_body_multipart r2 form fs Hf2). reflexivity.
  - rewrite (read_request_body_regular r1 Hff), (read_request_body_regular r2 Hf2).
    unfold GetHeader. rewrite Hh, Hb. reflexivity.
Qed.

(** X15.  Header folding: the headers of the value returned have exactly
    the names of the request's headers, and each name maps to its values
    joined by a comma and a space in the order received; a header with a
    single value keeps it as it is.  The first handler does the same. *)
Theorem headers_are_folded `{EncodingJSON} `{NetURL} (now : string) (req : http.Request) :
  exists headers,
    Rev3.Headers (reqInfo (Rev4.echoHandler now req)) = Some headers /\
    Rev1.Headers (reqInfo (Rev1.echo req)) = Some headers /\
    dom headers = dom (http.Header req) /\
    (forall key values, http.Header req !! key = Some values ->
        headers !! key = Some (strings.Join values ", ")) /\
    (forall key value, http.Header req !! key = Some [value] ->
        headers !! key = Some value) /\
    (forall key first second rest,
        http.Header req !! key = Some (first :: second :: rest) ->
        headers !! key = Some (first ++ ", " ++ strings.Join (second :: rest) ", ")).
Proof.
  destruct (echoHandler_outcome now req) as (_ & _ & _ & _ & _ & Hh & _).
  destruct (echo_outcome req) as (_ & _ & _ & _ & _ & Hh1 & _).
  exists (fold_headers (http.Header req)).
  split; [exact Hh|]. split; [exact Hh1|]. split; [|split; [|split]].
  - rewrite fold_headers_fmap. apply dom_fmap_L.
  - intros key values Hk. rewrite fold_headers_lookup, Hk. reflexivity.
  - intros key value Hk. rewrite fold_headers_lookup, Hk. reflexivity.
  - intros key first second rest Hk. rewrite fold_headers_lookup, Hk. reflexivity.
Qed.

Lemma headers_are_folded_witness :
  exists headers,
    Rev3.Headers (reqInfo (@Rev4.echoHandler json_literals origin_form "2025-03-01 09:30:00"
                             (json_request "example.com" "10.0.0.7:51234" "true")))
    = Some headers /\
    headers !! "X-Tag" = Some "a, a".
Proof.
  destruct (@headers_are_folded json_literals origin_form "2025-03-01 09:30:00"
              (json_request "example.com" "10.0.0.7:51234" "true"))
    as (headers & Hh & _ & _ & Hjoin & _).
  exists headers. split; [exact Hh|].
  apply (Hjoin "X-Tag" ["a"; "a"]). vm_compute. reflexivity.
Defined.

(** X16.  The handler answers 200 for every request and changes nothing
    in the request but its body stream: the method, the URL, the headers,
    the Host, the remote address, the TLS state and the parsed form are as
    they were, and so are the bytes the stream holds.  A request that has
    no body stream is left without one. *)
Theorem handler_leaves_request `{EncodingJSON} `{NetURL} (now : string) (req : http.Request) :
  status (Rev4.echoHandler now req) = 200 /\
  http.Method (request (Rev4.echoHandler now req)) = http.Method req /\
  http.URL (request (Rev4.echoHandler now req)) = http.URL req /\
  http.Header (request (Rev4.echoHandler now req)) = http.Header req /\
  http.Host (request (Rev4.echoHandler now req)) = http.Host req /\
  http.RemoteAddr (request (Rev4.echoHandler now req)) = http.RemoteAddr req /\
  http.TLS (request (Rev4.echoHandler now req)) = http.TLS req /\
  http.MultipartForm (request (Rev4.echoHandler now req)) = http.MultipartForm req /\
  body_bytes (request (Rev4.echoHandler now req)) = body_bytes req /\
  (http.Body req = None -> request (Rev4.echoHandler now req) = req).
Proof.
  destruct (echoHandler_outcome now req) as (Hreq & Hst & _).
  destruct (read_request_body_frame req) as (Hm & Hu & Hh & Hho & Hra & Htls & Hmf & Hb).
  rewrite Hreq.
  split; [exact Hst|]. split; [exact Hm|]. split; [exact Hu|]. split; [exact Hh|].
  split; [exact Hho|]. split; [exact Hra|]. split; [exact Htls|]. split; [exact Hmf|].
  split; [exact Hb|].
  intros Hnone. destruct (form_with_files req) as [[form fs]|] eqn:Hf.
  - rewrite (read_request_body_multipart req form fs Hf). reflexivity.
  - rewrite (read_request_body_regular req Hf), read_body_spec, Hnone. reflexivity.
Qed.

Lemma handler_leaves_request_witness :
  let req := {| http.Method := "GET";
                http.URL := url.origin "/webhook" "";
                http.Header := ∅; http.Body := None; http.Host := "example.com";
                http.RemoteAddr := "10.0.0.7:51234"; http.TLS := None;
                http.MultipartForm := None |} in
  request (@Rev4.echoHandler json_literals origin_form "2025-03-01 09:30:00" req) = req.
Proof.
  intros req.
  apply (@handler_leaves_request json_literals origin_form "2025-03-01 09:30:00" req).
  reflexivity.
Defined.

(** X17.  The JSON decoder is consulted only for a request that has no
    parsed form with files, whose Content-Type contains [application/json]
    and whose body is not empty: in every other case two servers with
    different decoders behave alike, and without a form with files the
    body is the raw text whatever it looks like. *)
Theorem decoder_only_for_json (D1 D2 : EncodingJSON) `{NetURL}
        (now : string) (req : http.Request) :
  form_with_files req <> None \/
  strings.Contains (GetHeader req "Content-Type") "application/json" = false \/
  body_bytes req = [] ->
  @Rev4.echoHandler D1 _ now req = @Rev4.echoHandler D2 _ now req /\
  (form_with_files req = None ->
   Rev3.Body (reqInfo (@Rev4.echoHandler D1 _ now req))
   = Str (string_of_bytes (body_bytes req)) /\
   bodyStr (@Rev4.echoHandler D1 _ now req) = string_of_bytes (body_bytes req)).
Proof.
  intros Hcase.
  assert (Hread : @read_request_body D1 req = @read_request_body D2 req /\
                  (form_with_files req = None ->
                   fst (@read_request_body D1 req)
                   = (Str (string_of_bytes (body_bytes req)),
                      string_of_bytes (body_bytes req)))).
  { destruct (form_with_files req) as [[form fs]|] eqn:Hf.
    - rewrite (@read_request_body_multipart D1 req form fs Hf),
              (@read_request_body_multipart D2 req form fs Hf).
      split; [reflexivity | discriminate].
    - destruct Hcase as [Hc|Hc]; [contradiction|].
      rewrite (@read_request_body_regular D1 req Hf),
              (@read_request_body_regular D2 req Hf).
      rewrite (@decode_body_text D1), (@decode_body_text D2)
        by (destruct Hc as [Hc|Hc]; [left; exact Hc | right; left; exact Hc]).
      split; [reflexivity | intros _; reflexivity]. }
  destruct Hread as [Heq Htext].
  split.
  - unfold Rev4.echoHandler, Rev3.echoHandler. rewrite Heq. reflexivity.
  - intros Hf.
    destruct (@echoHandler_outcome D1 _ now req) as (_ & _ & Hstr & _ & _ & _ & Hbody & _).
    rewrite Hbody, Hstr, (Htext Hf). split; reflexivity.
Qed.

Lemma decoder_only_for_json_witness :
  let req := {| http.Method := "POST";
                http.URL := url.origin "/webhook" "";
                http.Header := {[ "Content-Type" := ["text/plain"] ]};
                http.Body := Some {| io.unread := bytes_of_string "true"; io.failure := None |};
                http.Host := "example.com";
                http.RemoteAddr := "10.0.0.7:51234"; http.TLS := None;
                http.MultipartForm := None |} in
  Rev3.Body (reqInfo (@Rev4.echoHandler json_literals origin_form "2025-03-01 09:30:00" req))
  = Str "true".
Proof.
  intros req.
  destruct (@decoder_only_for_json json_literals json_literals origin_form
              "2025-03-01 09:30:00" req) as [_ Htext].
  - right. left. vm_compute. reflexivity.
  - exact (proj1 (Htext eq_refl)).
Defined.

(** X18.  A parsed form with a file map takes precedence over the body:
    the handler does not touch the request at all, the value returned does
    not depend on the body stream, and a file map that is empty but not
    nil still gives the mapping of the text fields and the fixed text
    about files. *)
Theorem multipart_form_takes_precedence `{EncodingJSON} `{NetURL}
        (now : string) (req : http.Request) (form : multipart.Form)
        (fs : gmap string (list multipart.FileHeader)) :
  http.MultipartForm req = Some form ->
  multipart.File form = Some fs ->
  request (Rev4.echoHandler now req) = req /\
  (forall b, reqInfo (Rev4.echoHandler now (http.set_Body req b))
             = reqInfo (Rev4.echoHandler now req)) /\
  (fs = ∅ ->
   Rev3.Body (reqInfo (Rev4.echoHandler now req))
   = Map (field_value <$> multipart.Value form) /\
   bodyStr (Rev4.echoHandler now req) = "[Multipart Form Data with Files]").
Proof.
  intros Hform Hfile.
  assert (Hf : form_with_files req = Some (form, fs)).
  { unfold form_with_files. rewrite Hform, Hfile. reflexivity. }
  destruct (echoHandler_outcome now req)
    as (Hreq & _ & Hstr & Hurl & Hmeth & Hhdr & Hbody & Htime).
  pose proof (read_request_body_multipart req form fs Hf) as Hread.
  split; [rewrite Hreq, Hread; reflexivity|]. split.
  - intros b.
    destruct (echoHandler_outcome now (http.set_Body req b))
      as (_ & _ & _ & Hurl' & Hmeth' & Hhdr' & Hbody' & Htime').
    assert (Hf' : form_with_files (http.set_Body req b) = Some (form, fs)).
    { unfold form_with_files. cbn. rewrite Hform, Hfile. reflexivity. }
    rewrite (read_request_body_multipart _ form fs Hf') in Hbody'.
    rewrite Hread in Hbody. cbn in Hbody, Hbody'.
    change (Rev3.getFullURL (http.set_Body req b)) with (Rev3.getFullURL req) in Hurl'.
    change (http.Method (http.set_Body req b)) with (http.Method req) in Hmeth'.
    change (http.Header (http.set_Body req b)) with (http.Header req) in Hhdr'.
    destruct (reqInfo (Rev4.echoHandler now (http.set_Body req b))),
             (reqInfo (Rev4.echoHandler now req)).
    cbn in *. congruence.
  - intros ->. rewrite Hbody, Hstr, Hread. cbn. split; [|reflexivity].
    unfold fold_files. rewrite map_fold_empty, fold_values_fmap. reflexivity.
Qed.

Lemma multipart_form_takes_precedence_witness :
  request (@Rev4.echoHandler json_literals origin_form "2025-03-01 09:30:00" upload_request)
  = upload_request.
Proof.
  exact (proj1 (@multipart_form_takes_precedence json_literals origin_form
                  "2025-03-01 09:30:00" upload_request
                  {| multipart.Value := {[ "file" := ["x"]; "note" := ["hello"] ]};
                     multipart.File := Some {[ "file" := [report_txt] ]} |}
                  {[ "file" := [report_txt] ]} eq_refl eq_refl)).
Defined.

Lemma read_body_again (req : http.Request) :
  snd (read_body (snd (read_body req))) = snd (read_body req).
Proof.
  rewrite (read_body_spec req). cbn [snd].
  destruct (http.Body req) as [r|] eqn:Hr.
  - rewrite read_body_spec. reflexivity.
  - rewrite read_body_spec, Hr. reflexivity.
Qed.

Lemma read_request_body_again `{EncodingJSON} (req : http.Request) :
  snd (read_request_body (snd (read_request_body req))) = snd (read_request_body req).
Proof.
  destruct (form_with_files req) as [[form fs]|] eqn:Hf.
  - rewrite (read_request_body_multipart req form fs Hf). cbn [snd].
    rewrite (read_request_body_multipart req form fs Hf). reflexivity.
  - rewrite (read_request_body_regular req Hf). cbn [snd].
    assert (Hf' : form_with_files (snd (read_body req)) = None).
    { destruct (read_body_frame req) as (_ & _ & _ & _ & _ & _ & Hmf & _).
      unfold form_with_files in *. rewrite Hmf. exact Hf. }
    rewrite (read_request_body_regular _ Hf'). cbn [snd]. apply read_body_again.
Qed.

Lemma RequestInfo_ext (i1 i2 : Rev3.RequestInfo) :
  Rev3.FullURL i1 = Rev3.FullURL i2 ->
  Rev3.Method i1 = Rev3.Method i2 ->
  Rev3.Headers i1 = Rev3.Headers i2 ->
  Rev3.Body i1 = Rev3.Body i2 ->
  Rev3.ReceivedTime i1 = Rev3.ReceivedTime i2 ->
  i1 = i2.
Proof. destruct i1, i2. cbn. intros -> -> -> -> ->. reflexivity. Qed.

(** X19.  Running the handler again on the request it left gives the same
    value and leaves the same request: a second consumer of the body sees
    what the first one saw. *)
Theorem handler_twice `{EncodingJSON} `{NetURL} (now : string) (req : http.Request) :
  reqInfo (Rev4.echoHandler now (request (Rev4.echoHandler now req)))
  = reqInfo (Rev4.echoHandler now req) /\
  bodyStr (Rev4.echoHandler now (request (Rev4.echoHandler now req)))
  = bodyStr (Rev4.echoHandler now req) /\
  request (Rev4.echoHandler now (request (Rev4.echoHandler now req)))
  = request (Rev4.echoHandler now req).
Proof.
  destruct (echoHandler_outcome now req)
    as (Hreq & _ & Hstr & Hurl & Hmeth & Hhdr & Hbody & Htime).
  set (req' := request (Rev4.echoHandler now req)) in *.
  destruct (echoHandler_outcome now req')
    as (Hreq' & _ & Hstr' & Hurl' & Hmeth' & Hhdr' & Hbody' & Htime').
  destruct (read_request_body_frame req) as (Hm & Hu & Hh & Hho & Hra & Htls & Hmf & Hb).
  rewrite <- Hreq in Hm, Hu, Hh, Hho, Hra, Htls, Hmf, Hb.
  pose proof (read_request_body_inputs req' req Hh Hb Hmf) as Hsame.
  split; [|split].
  - apply RequestInfo_ext.
    + rewrite Hurl', Hurl. unfold Rev3.getFullURL. rewrite Hu, Hho, Hra, Htls. reflexivity.
    + rewrite Hmeth', Hmeth. exact Hm.
    + rewrite Hhdr', Hhdr, Hh. reflexivity.
    + rewrite Hbody', Hbody, Hsame. reflexivity.
    + rewrite Htime', Htime. reflexivity.
  - rewrite Hstr', Hstr, Hsame. reflexivity.
  - rewrite Hreq', Hreq. apply read_request_body_again.
Qed.

(** X20.  The handler of the first two revisions and [echoHandler] differ
    in the full URL and the received time only: they give the same status,
    method, headers, body and printed text, leave the same request, and
    the full URL of the later one is that of the earlier one after the
    scheme and the host. *)
Theorem handlers_differ_in_url_and_time `{EncodingJSON} `{NetURL}
        (now : string) (req : http.Request) :
  status (Rev4.echoHandler now req) = status (Rev1.echo req) /\
  request (Rev4.echoHandler now req) = request (Rev1.echo req) /\
  bodyStr (Rev4.echoHandler now req) = bodyStr (Rev1.echo req) /\
  Rev3.Method (reqInfo (Rev4.echoHandler now req)) = Rev1.Method (reqInfo (Rev1.echo req)) /\
  Rev3.Headers (reqInfo (Rev4.echoHandler now req)) = Rev1.Headers (reqInfo (Rev1.echo req)) /\
  Rev3.Body (reqInfo (Rev4.echoHandler now req)) = Rev1.Body (reqInfo (Rev1.echo req)) /\
  Rev3.FullURL (reqInfo (Rev4.echoHandler now req))
  = (if decide (is_Some (http.TLS req)) then "https" else "http")
      ++ "://"
      ++ (if String.eqb (http.Host req) "" then http.RemoteAddr req else http.Host req)
      ++ Rev1.FullURL (reqInfo (Rev1.echo req)).
Proof.
  destruct (echoHandler_outcome now req)
    as (Hreq & Hst & Hstr & Hurl & Hmeth & Hhdr & Hbody & _).
  destruct (echo_outcome req) as (Hreq1 & Hst1 & Hstr1 & Hurl1 & Hmeth1 & Hhdr1 & Hbody1).
  rewrite Hreq, Hst, Hstr, Hurl, Hmeth, Hhdr, Hbody.
  rewrite Hreq1, Hst1, Hstr1, Hurl1, Hmeth1, Hhdr1, Hbody1.
  repeat split. apply getFullURL_eq.
Qed.


(** ** Start-up of the revision without the bound *)

(** X21.  When the [main] of lines 701-744 comes to serve, the address is
    the port found after a colon, the port was free at the probe and at
    the bind of [r.Run], and, as long as no port above 65535 is reported
    as occupied, it is not below the configured port, which lies within
    1..65535.  When it ends otherwise it has exited with code 1. *)
Theorem main_unbounded_serves_free_port (terminal : bool) (env : gmap string string)
        (probe listen : listen_fn) (fuel : nat) (log : list event) (e : ending) :
  Rev3.main terminal env probe listen fuel = Some (log, e) ->
  (e = Exit 1 \/ exists q, e = Serving (":" ++ fmt_d q) q) /\
  (forall addr q,
      e = Serving addr q ->
      addr = ":" ++ fmt_d q /\ probe q = None /\ listen q = None /\
      1 <= Rev3.getPortFromEnv env <= 65535 /\
      ((forall x, 65535 < x -> occupied Rev3.conflict probe x = false) ->
       Rev3.getPortFromEnv env <= q)).
Proof.
  unfold Rev3.main. intros Hm.
  assert (Hp : Rev3.getPortFromEnv (setup_term terminal env) = Rev3.getPortFromEnv env).
  { unfold Rev3.getPortFromEnv. rewrite Getenv_setup_term. reflexivity. }
  rewrite Hp in Hm.
  assert (Hrange : 1 <= Rev3.getPortFromEnv env <= 65535).
  { rewrite Rev3_port. apply port_or_default_range. lia. }
  set (p0 := Rev3.getPortFromEnv env) in *.
  destruct (Rev3.findAvailablePort probe fuel p0) as [[tr [port err]]|] eqn:Hs;
    [|discriminate Hm].
  destruct err as [err|].
  { injection Hm as <- <-. split; [left; reflexivity|]. intros addr q Hq. discriminate Hq. }
  pose proof (scan_returns_free probe fuel p0 tr port Hs) as Hfree.
  destruct (listen port) as [err|] eqn:Hl.
  { injection Hm as <- <-. split; [left; reflexivity|]. intros addr q Hq. discriminate Hq. }
  injection Hm as <- <-. split; [right; exists port; reflexivity|].
  intros addr q Hq. injection Hq as <- <-.
  split; [reflexivity|]. split; [exact Hfree|]. split; [exact Hl|]. split; [exact Hrange|].
  intros Hhigh.
  apply (scan_forward probe Hhigh fuel p0 tr port); [unfold int_min; lia | exact Hs].
Qed.

Lemma main_unbounded_serves_free_port_witness :
  busy_8080_8179 8180 = None.
Proof.
  destruct (Rev3.main true {[ "PRISM_PORT" := "8080" ]} busy_8080_8179 busy_8080_8179 200)
    as [[log e]|] eqn:Hm; [|vm_compute in Hm; discriminate Hm].
  destruct (main_unbounded_serves_free_port true {[ "PRISM_PORT" := "8080" ]}
              busy_8080_8179 busy_8080_8179 200 log e Hm) as [_ Hserve].
  assert (He : e = Serving ":8180" 8180).
  { vm_compute in Hm. injection Hm as _ <-. reflexivity. }
  exact (proj1 (proj2 (Hserve ":8180" 8180 He))).
Defined.
